(** * Report synthesis engine of the VLM service

    A shallow embedding of [vlm-service/main.py]: the explanation templates,
    the [/explain] handler, the report aggregator with its recommendation
    policy, and the [/generate_report] handler with the database connection
    it opens.  Python values, dictionaries and exceptions are modelled in
    [Py]; every later module follows one group of source functions. *)

From Stdlib Require Import String Ascii List ZArith QArith Qabs Lia Bool.
From Stdlib Require Import DecimalString.
From Stdlib Require Import Sorted Permutation.
From Stdlib Require Import Qround Qpower Lqa.
Import ListNotations.

Set Warnings "-register-all".

Local Open Scope list_scope.
Local Open Scope string_scope.

(** ** Python values, dictionaries, exceptions *)

Module Py.

(** A Python [float], that is a binary64 value.  A finite float is kept as
    the rational it denotes, and every operation that yields a float rounds
    its exact result with [round_binary64] below; the sign of a zero is not
    kept.  Every conversion of a float to text is left to the [Interpreter]
    below. *)
Inductive pyfloat : Type :=
| Finite (q : Q)
| PosInf
| NegInf
| NaN.

(** The values a decoded JSON document or a database row can hold. *)
Inductive value : Type :=
| VNone
| VBool (b : bool)
| VInt (n : Z)
| VFloat (x : pyfloat)
| VStr (s : string)
| VList (items : list value)
| VDict (entries : list (string * value)).

(** The exceptions that occur in the service.  All of them derive from
    Python's [Exception], so an [except Exception] clause catches each. *)
Inductive exn : Type :=
| HTTPException (status_code : Z) (detail : string)
| KeyError (key : string)
| TypeError (msg : string)
| ValueError (msg : string)
| OverflowError (msg : string)
| DatabaseError (msg : string).

Inductive result (A : Type) : Type :=
| Ok (a : A)
| Raise (e : exn).

Arguments Ok {A} a.
Arguments Raise {A} e.

Definition bind {A B : Type} (m : result A) (k : A -> result B) : result B :=
  match m with
  | Ok a => k a
  | Raise e => Raise e
  end.

Notation "x <- m ;; k" := (bind m (fun x => k))
  (at level 61, m at next level, right associativity).

(** [try: body / except Exception as e: handler e]. *)
Definition try_except {A : Type} (body : result A) (handler : exn -> A) : A :=
  match body with
  | Ok a => a
  | Raise e => handler e
  end.

Definition raises {A : Type} (m : result A) : bool :=
  match m with
  | Ok _ => false
  | Raise _ => true
  end.

(** A [dict] keeps its keys in insertion order, as Python's does. *)
Definition dict (V : Type) : Type := list (string * V).

Fixpoint dict_lookup {V : Type} (d : dict V) (k : string) : option V :=
  match d with
  | [] => None
  | (k', v) :: rest => if String.eqb k k' then Some v else dict_lookup rest k
  end.

(** [d.get(k, default)]. *)
Definition dict_get {V : Type} (d : dict V) (k : string) (default : V) : V :=
  match dict_lookup d k with
  | Some v => v
  | None => default
  end.

(** [d[k] = v]: an existing key keeps its position, a new key goes last. *)
Fixpoint dict_set {V : Type} (d : dict V) (k : string) (v : V) : dict V :=
  match d with
  | [] => [(k, v)]
  | (k', v') :: rest =>
      if String.eqb k k' then (k, v) :: rest else (k', v') :: dict_set rest k v
  end.

Definition dict_values {V : Type} (d : dict V) : list V := map snd d.

(** [x in xs] for a list of strings. *)
Definition str_in (x : string) (xs : list string) : bool :=
  existsb (String.eqb x) xs.

(** [len(xs)]. *)
Definition len {A : Type} (xs : list A) : Z := Z.of_nat (length xs).

(** [str(n)] for an [int]. *)
Definition str_int (n : Z) : string := NilZero.string_of_int (Z.to_int n).

Definition newline : string := String (ascii_of_nat 10) EmptyString.

(** [sep.join(parts)]. *)
Definition join (sep : string) (parts : list string) : string :=
  String.concat sep parts.

(** *** Format strings

    A template is the parsed form of a [str.format] string: literal text and
    replacement fields [{name}] or [{name:spec}].  The service only uses the
    empty spec, [.Nf] and [.N%]. *)
Inductive format_spec : Type :=
| SpecEmpty
| SpecFixed (precision : nat)
| SpecPercent (precision : nat).

Inductive piece : Type :=
| Lit (text : string)
| Field (name : string) (spec : format_spec).

Definition template : Type := list piece.

(** What the Python interpreter and its libraries contribute as text:
    - [float_format spec x] is [format(x, spec)] for a float [x] and a
      [.Nf] or [.N%] spec;
    - [value_repr v] is [str(v)] for a float, list or dict;
    - [json_dumps v] is [json.dumps(v)];
    - [isoformat t] is [t.isoformat()] for a [datetime];
    - [http_exception_str c d] is [str(HTTPException(c, d))], which depends
      on the installed Starlette. *)
Class Interpreter : Type := {
  float_format : format_spec -> pyfloat -> string;
  value_repr : value -> string;
  json_dumps : value -> string;
  isoformat : Z -> string;
  http_exception_str : Z -> string -> string
}.

(** *** Binary64 rounding

    The integer nearest to a rational, ties going to the even one. *)
Definition nearest_even (x : Q) : Z :=
  let f := Qfloor x in
  match Qcompare (x - inject_Z f) (1 # 2) with
  | Lt => f
  | Gt => (f + 1)%Z
  | Eq => if Z.even f then f else (f + 1)%Z
  end.

(** For a positive [x], the exponent [k] with [2^k <= x < 2^(k+1)]. *)
Definition floor_log2 (x : Q) : Z :=
  let k := (Z.log2 (Qnum x) - Z.log2 (Zpos (Qden x)))%Z in
  if Qle_bool (2 ^ k) x then k else (k - 1)%Z.

(** A positive rational rounded to the nearest binary64 value, ties to
    even: 53 significant bits, no exponent below -1074, and [None] when the
    rounded value reaches [2^1024]. *)
Definition round_positive (x : Q) : option Q :=
  let e := Z.max (floor_log2 x - 52) (-1074) in
  let y := inject_Z (nearest_even (x / 2 ^ e)) * 2 ^ e in
  if Qle_bool (2 ^ 1024) y then None else Some (Qred y).

(** The float an exact result is rounded to. *)
Definition round_binary64 (x : Q) : pyfloat :=
  match Qcompare x 0 with
  | Eq => Finite 0
  | Gt => match round_positive x with
          | Some y => Finite y
          | None => PosInf
          end
  | Lt => match round_positive (- x) with
          | Some y => Finite (- y)
          | None => NegInf
          end
  end.

(** [x / n] for a float [x] and a non-zero [int] [n] that a float holds
    exactly. *)
Definition float_div_int (x : pyfloat) (n : Z) : pyfloat :=
  match x with
  | Finite q => round_binary64 (q / inject_Z n)
  | PosInf => if (0 <? n)%Z then PosInf else NegInf
  | NegInf => if (0 <? n)%Z then NegInf else PosInf
  | NaN => NaN
  end.

(** The largest magnitude an [int] may have and still convert to a float:
    from [2^1024 - 2^970] on, rounding reaches [2^1024]. *)
Definition float_overflow_bound : Z := 2 ^ 1024 - 2 ^ 970.

(** [float(n)]: the nearest float; raises [OverflowError] beyond the
    binary64 range. *)
Definition float_of_int (n : Z) : result pyfloat :=
  if (Z.abs n <? float_overflow_bound)%Z
  then Ok (round_binary64 (inject_Z n))
  else Raise (OverflowError "int too large to convert to float").

Definition spec_code (spec : format_spec) : string :=
  match spec with
  | SpecEmpty => ""
  | SpecFixed _ => "f"
  | SpecPercent _ => "%"
  end.

Section WithInterpreter.

Context {I : Interpreter}.

(** [str(v)]. *)
Definition str (v : value) : string :=
  match v with
  | VNone => "None"
  | VBool true => "True"
  | VBool false => "False"
  | VInt n => str_int n
  | VStr s => s
  | VFloat _ | VList _ | VDict _ => value_repr v
  end.

(** [str(e)] for a caught exception. *)
Definition str_exn (e : exn) : string :=
  match e with
  | HTTPException c d => http_exception_str c d
  | KeyError k => "'" ++ k ++ "'"
  | TypeError m | ValueError m | OverflowError m | DatabaseError m => m
  end.

(** [format(v, spec)].  A numeric spec accepts floats, ints and bools (an
    [int] is converted to a float first) and is refused by every other
    type. *)
Definition format_value (spec : format_spec) (v : value) : result string :=
  match spec with
  | SpecEmpty => Ok (str v)
  | _ =>
      match v with
      | VFloat x => Ok (float_format spec x)
      | VInt n => bind (float_of_int n) (fun x => Ok (float_format spec x))
      | VBool b =>
          bind (float_of_int (if b then 1 else 0)%Z)
               (fun x => Ok (float_format spec x))
      | VStr _ =>
          Raise (ValueError ("Unknown format code '" ++ spec_code spec
                             ++ "' for object of type 'str'"))
      | VNone =>
          Raise (TypeError
                   "unsupported format string passed to NoneType.__format__")
      | VList _ =>
          Raise (TypeError
                   "unsupported format string passed to list.__format__")
      | VDict _ =>
          Raise (TypeError
                   "unsupported format string passed to dict.__format__")
      end
  end.

(** [template.format] applied to keyword arguments: fields are filled left
    to right and the first failure is the one raised. *)
Fixpoint str_format (t : template) (kwargs : dict value) : result string :=
  match t with
  | [] => Ok ""
  | Lit text :: rest =>
      bind (str_format rest kwargs) (fun tail => Ok (text ++ tail))
  | Field name spec :: rest =>
      match dict_lookup kwargs name with
      | None => Raise (KeyError name)
      | Some v =>
          bind (format_value spec v) (fun s =>
          bind (str_format rest kwargs) (fun tail => Ok (s ++ tail)))
      end
  end.

End WithInterpreter.

End Py.

Import Py.

(** ** Template registry and the [/explain] handler *)

Module Explain.

(** [ANOMALY_EXPLANATIONS]: one explanation template per anomaly type. *)
Definition ANOMALY_EXPLANATIONS : dict template :=
  [ ("off_screen_gaze",
     [ Lit "The candidate was looking away from the screen for ";
       Field "rate" (SpecPercent 0);
       Lit " of the last ";
       Field "window" SpecEmpty;
       Lit ". This may indicate they were reading from notes, looking at another device, or distracted." ]);
    ("object_phone",
     [ Lit "A phone or mobile device was detected in the candidate's hands or nearby for ";
       Field "duration" (SpecFixed 1);
       Lit " seconds. This could indicate they were using the device during the interview." ]);
    ("object_paper",
     [ Lit "Printed materials (paper or book) were visible for ";
       Field "duration" (SpecFixed 1);
       Lit " seconds. This may indicate the candidate was referencing notes or documents." ]);
    ("multi_person",
     [ Lit "Another person was detected entering the frame ";
       Field "count" SpecEmpty;
       Lit " times. This could be someone assisting the candidate or an environmental factor." ]);
    ("face_absence",
     [ Lit "The candidate left the frame for ";
       Field "duration" (SpecFixed 1);
       Lit " seconds. This could indicate they stood up, moved away, or there was a technical issue." ]);
    ("excessive_head_movement",
     [ Lit "Unusual head movement patterns were detected (yaw σ=";
       Field "yaw" (SpecFixed 1);
       Lit "°, pitch σ=";
       Field "pitch" (SpecFixed 1);
       Lit "°). This may indicate nervousness, reading from multiple sources, or restlessness." ]) ].

(** The default handed to [ANOMALY_EXPLANATIONS.get] in [explain_anomaly]. *)
Definition generic_template : template :=
  [ Lit "An anomaly of type '";
    Field "type" SpecEmpty;
    Lit "' was detected. Please review the session data." ].

(** An anomaly type is recognized when it is a key of
    [ANOMALY_EXPLANATIONS]. *)
Definition recognized (anomaly_type : string) : bool :=
  match dict_lookup ANOMALY_EXPLANATIONS anomaly_type with
  | Some _ => true
  | None => false
  end.

Definition generic_followup : list string :=
  [ "Can you provide context for this flag?" ].

(** The [questions] table local to [get_followup_questions]. *)
Definition questions : dict (list string) :=
  [ ("off_screen_gaze",
     [ "Can you describe your workspace setup?";
       "Were you referencing any materials during the interview?";
       "Did you experience any technical difficulties?" ]);
    ("object_phone",
     [ "Were you using your phone for anything during the interview?";
       "Do you recall checking your phone at any point?";
       "Was there an emergency or important notification?" ]);
    ("object_paper",
     [ "Were you referencing notes or documentation during the interview?";
       "Can you describe what materials you had with you?";
       "Did you prepare written notes beforehand?" ]);
    ("multi_person",
     [ "Was anyone else present during your interview?";
       "Did anyone enter your space during the session?";
       "Can you describe your interview environment?" ]);
    ("face_absence",
     [ "Did you need to step away at any point?";
       "Were there any technical issues with your camera?";
       "Did you experience any interruptions?" ]) ].

Definition get_followup_questions (anomaly_type : string) : list string :=
  dict_get questions anomaly_type generic_followup.

Record ExplanationRequest : Type := {
  anomaly_type : string;
  metrics : dict value;
  detected_at : string
}.

Record Explanation : Type := {
  explained_type : string;
  explanation : string;
  confidence : Q;
  evidence_bullets : list string;
  suggested_followup : list string
}.

(** The keyword arguments each branch of [explain_anomaly] passes to
    [template.format]: the metrics read, each with its default. *)
Definition format_arguments (anomaly_type : string) (metrics : dict value)
  : dict value :=
  if anomaly_type =? "off_screen_gaze" then
    [ ("rate", dict_get metrics "off_screen_rate" (VInt 0));
      ("window", dict_get metrics "window" (VStr "1min")) ]
  else if str_in anomaly_type ["object_phone"; "object_paper"; "face_absence"] then
    [ ("duration", dict_get metrics "duration_sec" (VInt 0)) ]
  else if anomaly_type =? "multi_person" then
    [ ("count", dict_get metrics "detection_count" (VInt 0)) ]
  else if anomaly_type =? "excessive_head_movement" then
    [ ("yaw", dict_get metrics "yaw_std" (VInt 0));
      ("pitch", dict_get metrics "pitch_std" (VInt 0)) ]
  else
    [ ("type", VStr anomaly_type) ].

Section WithInterpreter.

Context {I : Interpreter}.

(** The body of the [try] block: the selected template filled with the
    arguments of the branch taken. *)
Definition substitute (anomaly_type : string) (metrics : dict value)
  : result string :=
  let template :=
    dict_get ANOMALY_EXPLANATIONS anomaly_type generic_template in
  str_format template (format_arguments anomaly_type metrics).

(** [explain_anomaly].  Only the substitution sits inside the [try] block;
    the response is assembled after it. *)
Definition explain_anomaly (request : ExplanationRequest) : result Explanation :=
  let anomaly_type := request.(anomaly_type) in
  let metrics := request.(metrics) in
  let explanation :=
    try_except (substitute anomaly_type metrics)
               (fun _ => "Anomaly detected: " ++ anomaly_type) in
  Ok {| explained_type := anomaly_type;
        explanation := explanation;
        confidence := 85 # 100;
        evidence_bullets :=
          [ "Detected at " ++ request.(detected_at);
            "Metrics: " ++ json_dumps (VDict metrics) ];
        suggested_followup := get_followup_questions anomaly_type |}.

End WithInterpreter.

End Explain.

(** ** Report aggregator and recommendation policy *)

Module Report.

(** A row of [sessions] joined with the candidate and interviewer names.
    Timestamps are [datetime] values, counted in microseconds on one time
    line; a NULL column is [None]. *)
Record Session : Type := {
  session_id : string;
  started_at : option Z;
  ended_at : option Z;
  candidate_name : option string;
  interviewer_name : option string
}.

(** A row of [anomalies]; the columns read by the aggregator are taken to
    be non-NULL. *)
Record Anomaly : Type := {
  anomaly_type : string;
  severity : string;
  description : string;
  detected_at : Z
}.

(** The single row of the event summary query. *)
Record EventSummary : Type := {
  event_count : Z;
  first_event : option Z;
  last_event : option Z
}.

Record Metrics : Type := {
  duration_minutes : value;
  total_anomalies : Z;
  high_severity_count : Z;
  anomaly_breakdown : dict Z;
  metrics_event_count : Z
}.

Record Flag : Type := {
  flag_type : string;
  flag_description : string;
  flag_detected_at : string
}.

Record ReportSummary : Type := {
  summary : string;
  metrics : Metrics;
  high_priority_flags : list Flag
}.

Definition is_high (a : Anomaly) : bool := a.(severity) =? "high".

Definition proceed_message : string :=
  "Session appeared normal. Candidate can proceed to next stage.".

Definition multiple_high_message : string :=
  "Multiple high-severity flags detected. Recommend follow-up discussion with candidate.".

Definition brief_followup_message : string :=
  "Some concerns noted. Suggest brief follow-up to clarify flagged behaviors.".

Definition minor_flags_message : string :=
  "Minor flags detected but likely not concerning. Candidate can proceed with note of minor observations.".

Definition get_overall_recommendation (anomalies : list Anomaly)
    (duration : value) : string :=
  let high_severity := filter is_high anomalies in
  match anomalies with
  | [] => proceed_message
  | _ :: _ =>
      if (len high_severity >=? 3)%Z then multiple_high_message
      else if (len high_severity >? 0)%Z then brief_followup_message
      else minor_flags_message
  end.

(** [timedelta.total_seconds()] of a difference given in microseconds: the
    quotient of two integers, rounded once. *)
Definition total_seconds (microseconds : Z) : pyfloat :=
  round_binary64 (microseconds # 1000000).

(** The duration computed at the head of [generate_report_summary]: a float
    when both timestamps are present, the [int] 0 otherwise. *)
Definition duration_of (session : Session) : value :=
  match session.(ended_at), session.(started_at) with
  | Some ended, Some started =>
      VFloat (float_div_int (total_seconds (ended - started)) 60)
  | _, _ => VInt 0
  end.

(** One turn of the loop that categorizes the anomalies. *)
Definition categorize_step (acc : dict Z * list Anomaly) (anomaly : Anomaly)
  : dict Z * list Anomaly :=
  let '(anomaly_counts, high_severity) := acc in
  let atype := anomaly.(anomaly_type) in
  let anomaly_counts :=
    dict_set anomaly_counts atype (dict_get anomaly_counts atype 0 + 1)%Z in
  if anomaly.(severity) =? "high"
  then (anomaly_counts, (high_severity ++ [anomaly])%list)
  else (anomaly_counts, high_severity).

Definition categorize (anomalies : list Anomaly) : dict Z * list Anomaly :=
  fold_left categorize_step anomalies ([], []).

Section WithInterpreter.

Context {I : Interpreter}.

Definition flag_of (a : Anomaly) : Flag :=
  {| flag_type := a.(anomaly_type);
     flag_description := a.(description);
     flag_detected_at := isoformat a.(detected_at) |}.

Definition generate_report_summary (session : Session)
    (anomalies : list Anomaly) (event_summary : EventSummary)
  : result ReportSummary :=
  let duration := duration_of session in
  let '(anomaly_counts, high_severity) := categorize anomalies in
  shown_duration <- format_value (SpecFixed 1) duration ;;
  let heading :=
    [ "Interview session completed with duration of " ++ shown_duration
        ++ " minutes.";
      "Total of " ++ str_int (len anomalies)
        ++ " behavioral flags detected during the session." ] in
  let attention :=
    match high_severity with
    | [] => []
    | _ :: _ =>
        (newline ++ "⚠️  " ++ str_int (len high_severity)
           ++ " high-severity flags require attention:")
        :: map (fun anomaly => "  - " ++ anomaly.(description))
               (firstn 3 high_severity)
    end in
  let breakdown :=
    match anomaly_counts with
    | _ :: _ =>
        (newline ++ "Anomaly breakdown:")
        :: map (fun '(atype, count) =>
                  "  - " ++ atype ++ ": " ++ str_int count ++ " occurrences")
               anomaly_counts
    | [] =>
        [ newline
            ++ "✓ No significant anomalies detected. Session appeared normal." ]
    end in
  let recommendation :=
    [ newline ++ "📝 Recommendation: "
        ++ get_overall_recommendation anomalies duration ] in
  let summary_parts :=
    (heading ++ attention ++ breakdown ++ recommendation)%list in
  Ok {| summary := join newline summary_parts;
        metrics :=
          {| duration_minutes := duration;
             total_anomalies := len anomalies;
             high_severity_count := len high_severity;
             anomaly_breakdown := anomaly_counts;
             metrics_event_count := event_summary.(event_count) |};
        high_priority_flags := map flag_of high_severity |}.

End WithInterpreter.

End Report.

(** ** The [/generate_report] handler and its database connection *)

Module Service.

Import Report.

(** A row of [reports]. *)
Record ReportRow : Type := {
  id : Z;
  row_session_id : string;
  row_generated_at : Z;
  vlm_summary : string;
  row_metrics : string;
  report_type : string
}.

(** An open connection with the rows its transaction has inserted and not
    yet committed.  A connection is open from [get_db()] until
    [conn.close()] runs on it; what the garbage collector does later to a
    connection the handler abandoned is outside the model. *)
Record Connection : Type := {
  conn_id : nat;
  pending : list ReportRow
}.

(** The calls the handler makes on the storage layer, in source order. *)
Inductive db_call : Type :=
| Connect
| OpenCursor
| SelectSession
| SelectAnomalies
| SelectEvents
| InsertReport
| Commit
| Close.

Definition db_call_eqb (a b : db_call) : bool :=
  match a, b with
  | Connect, Connect | OpenCursor, OpenCursor
  | SelectSession, SelectSession | SelectAnomalies, SelectAnomalies
  | SelectEvents, SelectEvents | InsertReport, InsertReport
  | Commit, Commit | Close, Close => true
  | _, _ => false
  end.

(** The store, the connections open on it, and the environment of one
    request: [failing_call] names the storage call that raises, if any. *)
Record World : Type := {
  sessions : list Session;
  anomalies : list (string * Anomaly);
  events : list (string * Z);
  reports : list ReportRow;
  connections : list Connection;
  next_conn_id : nat;
  next_report_id : Z;
  clock : Z;
  failing_call : option (db_call * string)
}.

Definition with_connections (w : World) (cs : list Connection) (next : nat)
  : World :=
  {| sessions := w.(sessions); anomalies := w.(anomalies);
     events := w.(events); reports := w.(reports);
     connections := cs; next_conn_id := next;
     next_report_id := w.(next_report_id); clock := w.(clock);
     failing_call := w.(failing_call) |}.

Definition with_reports (w : World) (rs : list ReportRow) : World :=
  {| sessions := w.(sessions); anomalies := w.(anomalies);
     events := w.(events); reports := rs;
     connections := w.(connections); next_conn_id := w.(next_conn_id);
     next_report_id := w.(next_report_id); clock := w.(clock);
     failing_call := w.(failing_call) |}.

Definition with_next_report_id (w : World) (n : Z) : World :=
  {| sessions := w.(sessions); anomalies := w.(anomalies);
     events := w.(events); reports := w.(reports);
     connections := w.(connections); next_conn_id := w.(next_conn_id);
     next_report_id := n; clock := w.(clock);
     failing_call := w.(failing_call) |}.

(** Connections opened earlier carry smaller ids than the next one. *)
Definition ids_below (n : nat) (cs : list Connection) : Prop :=
  Forall (fun c => (c.(conn_id) < n)%nat) cs.

(** Handlers run against the world and may raise; the world a raising
    handler leaves behind is kept. *)
Definition io (A : Type) : Type := World -> result A * World.

Definition io_ret {A : Type} (a : A) : io A := fun w => (Ok a, w).

Definition io_raise {A : Type} (e : exn) : io A := fun w => (Raise e, w).

Definition io_bind {A B : Type} (m : io A) (k : A -> io B) : io B :=
  fun w =>
    match m w with
    | (Ok a, w') => k a w'
    | (Raise e, w') => (Raise e, w')
    end.

Definition io_lift {A : Type} (r : result A) : io A := fun w => (r, w).

(** [try: body / except Exception as e: handler e]. *)
Definition io_try {A : Type} (body : io A) (handler : exn -> io A) : io A :=
  fun w =>
    match body w with
    | (Ok a, w') => (Ok a, w')
    | (Raise e, w') => handler e w'
    end.

Notation "x <~ m ;; k" := (io_bind m (fun x => k))
  (at level 61, m at next level, right associativity).

(** A call on the storage layer: it raises when it is the failing call of
    this world, and runs otherwise. *)
Definition storage_call {A : Type} (c : db_call) (run : World -> A * World)
  : io A :=
  fun w =>
    match w.(failing_call) with
    | Some (c', msg) =>
        if db_call_eqb c c' then (Raise (DatabaseError msg), w)
        else let (a, w') := run w in (Ok a, w')
    | None => let (a, w') := run w in (Ok a, w')
    end.

(** [get_db()]: opens a connection. *)
Definition get_db : io nat :=
  storage_call Connect (fun w =>
    let c := w.(next_conn_id) in
    (c, with_connections w
          ({| conn_id := c; pending := [] |} :: w.(connections)) (S c))).

(** [conn.cursor()]. *)
Definition cursor (conn : nat) : io unit :=
  storage_call OpenCursor (fun w => (tt, w)).

(** The session query followed by [fetchone()]. *)
Definition fetch_session (sid : string) : io (option Session) :=
  storage_call SelectSession (fun w =>
    (find (fun s => s.(session_id) =? sid) w.(sessions), w)).

Fixpoint insert_by_time (a : Anomaly) (sorted : list Anomaly) : list Anomaly :=
  match sorted with
  | [] => [a]
  | b :: rest =>
      if (a.(detected_at) <=? b.(detected_at))%Z
      then a :: b :: rest
      else b :: insert_by_time a rest
  end.

(** [ORDER BY detected_at ASC].  PostgreSQL leaves the order of rows with
    equal keys open; here they keep the order of the table. *)
Definition order_by_detected_at (rows : list Anomaly) : list Anomaly :=
  fold_right insert_by_time [] rows.

(** The anomalies query followed by [fetchall()]. *)
Definition fetch_anomalies (sid : string) : io (list Anomaly) :=
  storage_call SelectAnomalies (fun w =>
    (order_by_detected_at
       (map snd (filter (fun row => fst row =? sid) w.(anomalies))), w)).

Definition min_time (ts : list Z) : option Z :=
  match ts with
  | [] => None
  | t :: rest => Some (fold_left Z.min rest t)
  end.

Definition max_time (ts : list Z) : option Z :=
  match ts with
  | [] => None
  | t :: rest => Some (fold_left Z.max rest t)
  end.

(** The event summary query followed by [fetchone()]. *)
Definition fetch_event_summary (sid : string) : io EventSummary :=
  storage_call SelectEvents (fun w =>
    let ts := map snd (filter (fun row => fst row =? sid) w.(events)) in
    ({| event_count := len ts;
        first_event := min_time ts;
        last_event := max_time ts |}, w)).

Definition add_pending (conn : nat) (row : ReportRow) (c : Connection)
  : Connection :=
  if Nat.eqb c.(conn_id) conn
  then {| conn_id := c.(conn_id); pending := (c.(pending) ++ [row])%list |}
  else c.

(** The [INSERT ... RETURNING id] followed by [fetchone()['id']]. *)
Definition insert_report (conn : nat) (sid text metrics_json : string) : io Z :=
  storage_call InsertReport (fun w =>
    let row := {| id := w.(next_report_id);
                  row_session_id := sid;
                  row_generated_at := w.(clock);
                  vlm_summary := text;
                  row_metrics := metrics_json;
                  report_type := "standard" |} in
    (w.(next_report_id),
     with_next_report_id
       (with_connections w (map (add_pending conn row) w.(connections))
                         w.(next_conn_id))
       (w.(next_report_id) + 1)%Z)).

Definition pending_of (conn : nat) (cs : list Connection) : list ReportRow :=
  flat_map (fun c => if Nat.eqb c.(conn_id) conn then c.(pending) else []) cs.

Definition clear_pending (conn : nat) (c : Connection) : Connection :=
  if Nat.eqb c.(conn_id) conn
  then {| conn_id := c.(conn_id); pending := [] |}
  else c.

(** [conn.commit()]: the pending rows of the connection become visible. *)
Definition commit (conn : nat) : io unit :=
  storage_call Commit (fun w =>
    (tt,
     with_reports
       (with_connections w (map (clear_pending conn) w.(connections))
                         w.(next_conn_id))
       (w.(reports) ++ pending_of conn w.(connections))%list)).

(** [conn.close()]: the connection is released, pending rows are lost. *)
Definition close (conn : nat) : io unit :=
  storage_call Close (fun w =>
    (tt,
     with_connections w
       (filter (fun c => negb (Nat.eqb c.(conn_id) conn)) w.(connections))
       w.(next_conn_id))).

(** [datetime.utcnow()]. *)
Definition utcnow : io Z := fun w => (Ok w.(clock), w).

Record ReportRequest : Type := {
  request_session_id : string
}.

Record ReportResponse : Type := {
  report_id : Z;
  response_session_id : string;
  generated_at : string;
  response_summary : ReportSummary
}.

(** The [metrics] dictionary of a summary as the value [json.dumps] sees. *)
Definition metrics_value (m : Metrics) : value :=
  VDict
    [ ("duration_minutes", m.(duration_minutes));
      ("total_anomalies", VInt m.(total_anomalies));
      ("high_severity_count", VInt m.(high_severity_count));
      ("anomaly_breakdown",
       VDict (map (fun '(atype, count) => (atype, VInt count))
                  m.(anomaly_breakdown)));
      ("event_count", VInt m.(metrics_event_count)) ].

Section WithInterpreter.

Context {I : Interpreter}.

Definition generate_report (request : ReportRequest) : io ReportResponse :=
  let session_id := request.(request_session_id) in
  io_try
    (conn <~ get_db ;;
     _ <~ cursor conn ;;
     session <~ fetch_session session_id ;;
     match session with
     | None => io_raise (HTTPException 404 "Session not found")
     | Some session =>
         anomalies <~ fetch_anomalies session_id ;;
         event_summary <~ fetch_event_summary session_id ;;
         report_summary <~
           io_lift (generate_report_summary session anomalies event_summary) ;;
         report_id <~
           insert_report conn session_id report_summary.(summary)
             (json_dumps (metrics_value report_summary.(metrics))) ;;
         _ <~ commit conn ;;
         _ <~ close conn ;;
         now <~ utcnow ;;
         io_ret {| report_id := report_id;
                   response_session_id := session_id;
                   generated_at := isoformat now;
                   response_summary := report_summary |}
     end)
    (fun e =>
       io_raise (HTTPException 500
                   ("Report generation failed: " ++ str_exn e))).

End WithInterpreter.

End Service.

(** ** A reference interpreter

    One concrete [Interpreter], used to run the model on examples.  A float
    is printed from the exact value it holds, rounded half to even at the
    last digit asked for; a percentage is multiplied by 100 as a float
    first; [repr] takes the fewest decimals that read back as the same
    float, in positional notation.  JSON strings are assumed to need no
    escaping, datetimes are naive and printed in the proleptic
    Gregorian calendar, and [str] of an [HTTPException] is Starlette's
    [status: detail]. *)

Module Reference.

Definition round_half_even (q : Q) : Z :=
  let n := Qnum q in
  let d := Zpos (Qden q) in
  let floor := (n / d)%Z in
  let twice := (2 * (n mod d))%Z in
  if (twice <? d)%Z then floor
  else if (d <? twice)%Z then (floor + 1)%Z
  else if Z.even floor then floor else (floor + 1)%Z.

Fixpoint zeros (n : nat) : string :=
  match n with
  | O => ""
  | S n' => "0" ++ zeros n'
  end.

(** [s] padded on the left with zeros up to [width] characters. *)
Definition pad_left (width : nat) (s : string) : string :=
  zeros (width - String.length s)%nat ++ s.

(** The decimal text of [|q|] with exactly [n] digits after the point. *)
Definition fixed_digits (n : nat) (q : Q) : string :=
  let scaled := round_half_even (Qabs q * inject_Z (10 ^ Z.of_nat n)) in
  let digits := pad_left (S n) (str_int scaled) in
  let whole := (String.length digits - n)%nat in
  match n with
  | O => digits
  | S _ => substring 0 whole digits ++ "." ++ substring whole n digits
  end.

Definition fixed (n : nat) (q : Q) : string :=
  (if Qlt_le_dec q 0 then "-" else "") ++ fixed_digits n q.

(** Whether [q], written with [n] decimals, reads back as the float [q]. *)
Definition reads_back (n : nat) (q : Q) : bool :=
  let scale := inject_Z (10 ^ Z.of_nat n) in
  match round_binary64 (inject_Z (round_half_even (q * scale)) / scale) with
  | Finite back => Qeq_bool back q
  | _ => false
  end.

(** The fewest decimals, from [n] on and at most [fuel] more, that read
    back as the float [q]. *)
Fixpoint decimals_needed (fuel n : nat) (q : Q) : nat :=
  match fuel with
  | O => n
  | S fuel' => if reads_back n q then n else decimals_needed fuel' (S n) q
  end.

Definition float_repr (x : pyfloat) : string :=
  match x with
  | Finite q => fixed (decimals_needed 24 1 q) q
  | PosInf => "inf"
  | NegInf => "-inf"
  | NaN => "nan"
  end.

Definition float_format (spec : format_spec) (x : pyfloat) : string :=
  match x, spec with
  | NaN, SpecPercent _ => "nan%"
  | PosInf, SpecPercent _ => "inf%"
  | NegInf, SpecPercent _ => "-inf%"
  | NaN, _ => "nan"
  | PosInf, _ => "inf"
  | NegInf, _ => "-inf"
  | Finite q, SpecFixed n => fixed n q
  | Finite q, SpecPercent n =>
      match round_binary64 (q * 100) with
      | Finite p => fixed n p ++ "%"
      | PosInf => "inf%"
      | NegInf => "-inf%"
      | NaN => "nan%"
      end
  | Finite q, SpecEmpty => float_repr x
  end.

Definition quote : string := String (ascii_of_nat 34) EmptyString.

Fixpoint value_repr (v : value) : string :=
  match v with
  | VNone => "None"
  | VBool true => "True"
  | VBool false => "False"
  | VInt n => str_int n
  | VFloat x => float_repr x
  | VStr s => "'" ++ s ++ "'"
  | VList items => "[" ++ join ", " (map value_repr items) ++ "]"
  | VDict entries =>
      "{" ++ join ", "
               (map (fun entry =>
                       "'" ++ fst entry ++ "': " ++ value_repr (snd entry))
                    entries)
          ++ "}"
  end.

Definition json_float (x : pyfloat) : string :=
  match x with
  | Finite _ => float_repr x
  | PosInf => "Infinity"
  | NegInf => "-Infinity"
  | NaN => "NaN"
  end.

Fixpoint json_dumps (v : value) : string :=
  match v with
  | VNone => "null"
  | VBool true => "true"
  | VBool false => "false"
  | VInt n => str_int n
  | VFloat x => json_float x
  | VStr s => quote ++ s ++ quote
  | VList items => "[" ++ join ", " (map json_dumps items) ++ "]"
  | VDict entries =>
      "{" ++ join ", "
               (map (fun entry =>
                       quote ++ fst entry ++ quote ++ ": "
                         ++ json_dumps (snd entry))
                    entries)
          ++ "}"
  end.

(** Year, month and day of a day number counted from 1970-01-01. *)
Definition civil_from_days (days : Z) : Z * Z * Z :=
  let z := (days + 719468)%Z in
  let era := (z / 146097)%Z in
  let doe := (z - era * 146097)%Z in
  let yoe := ((doe - doe / 1460 + doe / 36524 - doe / 146096) / 365)%Z in
  let doy := (doe - (365 * yoe + yoe / 4 - yoe / 100))%Z in
  let mp := ((5 * doy + 2) / 153)%Z in
  let d := (doy - (153 * mp + 2) / 5 + 1)%Z in
  let m := (if (mp <? 10)%Z then mp + 3 else mp - 9)%Z in
  let y := (yoe + era * 400 + (if (m <=? 2)%Z then 1 else 0))%Z in
  (y, m, d).

Definition two (n : Z) : string := pad_left 2 (str_int n).

Definition isoformat (t : Z) : string :=
  let seconds := (t / 1000000)%Z in
  let micro := (t mod 1000000)%Z in
  let '(y, m, d) := civil_from_days (seconds / 86400) in
  let s := (seconds mod 86400)%Z in
  pad_left 4 (str_int y) ++ "-" ++ two m ++ "-" ++ two d ++ "T"
    ++ two (s / 3600) ++ ":" ++ two (s mod 3600 / 60) ++ ":" ++ two (s mod 60)
    ++ (if (micro =? 0)%Z then "" else "." ++ pad_left 6 (str_int micro)).

Definition http_exception_str (status_code : Z) (detail : string) : string :=
  str_int status_code ++ ": " ++ detail.

Definition interpreter : Interpreter :=
  {| Py.float_format := float_format;
     Py.value_repr := value_repr;
     Py.json_dumps := json_dumps;
     Py.isoformat := isoformat;
     Py.http_exception_str := http_exception_str |}.

End Reference.

(** ** The contract, in the specification's words

    Definitions that restate what the specification says, to be compared
    with the functions above. *)

Module Contract.

Import Report.

(** The metrics keys the template of a recognized type reads, each with the
    placeholder it fills and the format spec of that placeholder. *)
Definition reads (anomaly_type : string)
  : list (string * string * format_spec) :=
  if anomaly_type =? "off_screen_gaze" then
    [ ("off_screen_rate", "rate", SpecPercent 0);
      ("window", "window", SpecEmpty) ]
  else if str_in anomaly_type ["object_phone"; "object_paper"; "face_absence"] then
    [ ("duration_sec", "duration", SpecFixed 1) ]
  else if anomaly_type =? "multi_person" then
    [ ("detection_count", "count", SpecEmpty) ]
  else if anomaly_type =? "excessive_head_movement" then
    [ ("yaw_std", "yaw", SpecFixed 1);
      ("pitch_std", "pitch", SpecFixed 1) ]
  else [].

(** The default a missing metrics key takes. *)
Definition default_of (key : string) : value :=
  if key =? "window" then VStr "1min" else VInt 0.

(** The values a placeholder with the given spec can print. *)
Definition accepts (spec : format_spec) (v : value) : bool :=
  match spec, v with
  | SpecEmpty, _ => true
  | _, VFloat _ => true
  | _, VBool _ => true
  | _, VInt n => (Z.abs n <? float_overflow_bound)%Z
  | _, _ => false
  end.

(** [text] occurs in [s]. *)
Definition contains (s text : string) : Prop :=
  exists before after : string, s = before ++ text ++ after.

(** The number of records with severity [high]. *)
Fixpoint count_high (anomalies : list Anomaly) : Z :=
  match anomalies with
  | [] => 0
  | a :: rest =>
      let hit := if a.(severity) =? "high" then 1%Z else 0%Z in
      (hit + count_high rest)%Z
  end.

(** The sum of the occurrence counts of a breakdown. *)
Fixpoint sum_counts (breakdown : dict Z) : Z :=
  match breakdown with
  | [] => 0
  | (_, n) :: rest => (n + sum_counts rest)%Z
  end.

(** The ranked rules of the recommendation policy. *)
Inductive recommends : list Anomaly -> string -> Prop :=
| rule_no_anomalies :
    recommends [] proceed_message
| rule_multiple_high (anomalies : list Anomaly) :
    anomalies <> [] -> (3 <= count_high anomalies)%Z ->
    recommends anomalies multiple_high_message
| rule_some_high (anomalies : list Anomaly) :
    anomalies <> [] -> (1 <= count_high anomalies < 3)%Z ->
    recommends anomalies brief_followup_message
| rule_only_minor (anomalies : list Anomaly) :
    anomalies <> [] -> count_high anomalies = 0%Z ->
    recommends anomalies minor_flags_message.

(** The records with severity [high], in the order of the list. *)
Fixpoint high_severity_of (anomalies : list Anomaly) : list Anomaly :=
  match anomalies with
  | [] => []
  | a :: rest =>
      if a.(severity) =? "high"
      then a :: high_severity_of rest
      else high_severity_of rest
  end.

(** A flag describes a record: it carries the record's type, its
    description and the ISO text of its detection time. *)
Definition describes {I : Interpreter} (f : Flag) (a : Anomaly) : Prop :=
  f.(flag_type) = a.(anomaly_type)
  /\ f.(flag_description) = a.(description)
  /\ f.(flag_detected_at) = isoformat a.(detected_at).

(** The bounds of [datetime], [0001-01-01T00:00:00] and
    [9999-12-31T23:59:59.999999], in microseconds from the epoch. *)
Definition datetime_min : Z := -62135596800000000.
Definition datetime_max : Z := 253402300799999999.

Definition valid_datetime (t : Z) : Prop :=
  (datetime_min <= t <= datetime_max)%Z.

(** The duration the specification writes, [(ended_at - started_at) / 60]
    with the difference taken in seconds, as an exact quotient. *)
Definition exact_minutes (started ended : Z) : Q :=
  ((ended - started) # 1000000) / 60.

(** The relative distance a binary64 division keeps from the exact
    quotient, [2^-53], and the bound two of them in a row keep, [2^-51]. *)
Definition half_ulp : Q := 1 # 9007199254740992.
Definition two_roundings : Q := 1 # 2251799813685248.

End Contract.

(** ** Sample inputs *)

Module Samples.

Import Report Service.

Definition phone_request : Explain.ExplanationRequest :=
  {| Explain.anomaly_type := "object_phone";
     Explain.metrics := [ ("duration_sec", VFloat (Finite (125 # 10))) ];
     Explain.detected_at := "2024-01-01T00:00:00Z" |}.

(** A known type whose metric is text: substitution fails. *)
Definition malformed_request : Explain.ExplanationRequest :=
  {| Explain.anomaly_type := "object_phone";
     Explain.metrics := [ ("duration_sec", VStr "twelve") ];
     Explain.detected_at := "2024-01-01T00:00:00Z" |}.

Definition unknown_request : Explain.ExplanationRequest :=
  {| Explain.anomaly_type := "tab_switch";
     Explain.metrics := [ ("count", VInt 4) ];
     Explain.detected_at := "2024-01-01T00:00:00Z" |}.

(** 2024-01-01T00:00:00 in microseconds. *)
Definition t0 : Z := 1704067200000000.

Definition seconds (n : Z) : Z := (n * 1000000)%Z.

Definition session_25min : Session :=
  {| session_id := "s-1";
     started_at := Some t0;
     ended_at := Some (t0 + seconds 1500)%Z;
     candidate_name := Some "Ada";
     interviewer_name := Some "Grace" |}.

Definition session_unfinished : Session :=
  {| session_id := "s-2";
     started_at := Some t0;
     ended_at := None;
     candidate_name := Some "Ada";
     interviewer_name := None |}.

Definition session_reversed : Session :=
  {| session_id := "s-3";
     started_at := Some (t0 + seconds 90)%Z;
     ended_at := Some t0;
     candidate_name := None;
     interviewer_name := None |}.

Definition session_3s : Session :=
  {| session_id := "s-4";
     started_at := Some t0;
     ended_at := Some (t0 + seconds 3)%Z;
     candidate_name := None;
     interviewer_name := None |}.

Definition anomaly (type sev : string) (offset : Z) : Anomaly :=
  {| anomaly_type := type;
     severity := sev;
     description := type ++ " flagged";
     detected_at := (t0 + seconds offset)%Z |}.

Definition four_anomalies : list Anomaly :=
  [ anomaly "object_phone" "high" 60;
    anomaly "off_screen_gaze" "medium" 120;
    anomaly "object_phone" "high" 300;
    anomaly "face_absence" "low" 600 ].

Definition four_high : list Anomaly :=
  [ anomaly "object_phone" "high" 60;
    anomaly "multi_person" "high" 120;
    anomaly "object_paper" "high" 300;
    anomaly "object_phone" "high" 600 ].

Definition events_a : EventSummary :=
  {| event_count := 12;
     first_event := Some t0;
     last_event := Some (t0 + seconds 1400)%Z |}.

Definition events_b : EventSummary :=
  {| event_count := 12;
     first_event := Some (t0 + seconds 5)%Z;
     last_event := Some (t0 + seconds 900)%Z |}.

(** A store holding one session, its anomalies and two events; no
    connection is open and no storage call fails. *)
Definition store : World :=
  {| sessions := [ session_25min ];
     anomalies := map (fun a => ("s-1", a)) four_anomalies;
     events := [ ("s-1", t0); ("s-1", (t0 + seconds 1400)%Z) ];
     reports := [];
     connections := [];
     next_conn_id := 0;
     next_report_id := 1;
     clock := (t0 + seconds 1600)%Z;
     failing_call := None |}.

Definition request_for (sid : string) : ReportRequest :=
  {| request_session_id := sid |}.

End Samples.

(** ** The [/vqa] handler *)

Module Vqa.

(** [str.lower()], which follows the Unicode case tables of the
    interpreter. *)
Class Unicode : Type := {
  lower : string -> string
}.

(** [s.startswith(prefix)]. *)
Fixpoint starts_with (prefix s : string) : bool :=
  match prefix, s with
  | EmptyString, _ => true
  | String _ _, EmptyString => false
  | String a prefix', String b s' => Ascii.eqb a b && starts_with prefix' s'
  end.

(** [needle in s] for two strings. *)
Fixpoint str_contains (needle s : string) : bool :=
  starts_with needle s
  || match s with
     | EmptyString => false
     | String _ rest => str_contains needle rest
     end.

Record VQARequest : Type := {
  session_id : string;
  question : string;
  frame_ids : option (list string)
}.

Record VQAResponse : Type := {
  asked : string;
  answer : string;
  confidence : Q;
  frame_references : list string
}.

Definition one_person_answer : string :=
  "No, only one person is visible in the analyzed frames.".

Definition phone_answer : string :=
  "A rectangular device consistent with a phone was detected in frame f-003452.".

Definition looking_answer : string :=
  "The candidate appears to be looking to the right and downward in multiple frames.".

Definition unable_answer : string :=
  "Unable to determine from available frames.".

(** [xs or []] for an optional list: [None] and the empty list are both
    falsy. *)
Definition or_empty (xs : option (list string)) : list string :=
  match xs with
  | Some (x :: rest) => x :: rest
  | Some [] | None => []
  end.

Section WithUnicode.

Context {U : Unicode}.

Definition visual_question_answering (request : VQARequest) : VQAResponse :=
  let '(answer, confidence) :=
    if str_contains "person" (lower request.(question)) then
      (one_person_answer, 92 # 100)
    else if str_contains "phone" (lower request.(question)) then
      (phone_answer, 78 # 100)
    else if str_contains "looking" (lower request.(question)) then
      (looking_answer, 85 # 100)
    else
      (unable_answer, 5 # 10) in
  {| asked := request.(question);
     answer := answer;
     confidence := confidence;
     frame_references := or_empty request.(frame_ids) |}.

End WithUnicode.

(** [str.lower()] on ASCII text: the letters [A] to [Z] are mapped to [a]
    to [z], every other byte is kept. *)
Definition ascii_lower_char (c : ascii) : ascii :=
  let n := nat_of_ascii c in
  if ((65 <=? n) && (n <=? 90))%nat then ascii_of_nat (n + 32) else c.

Fixpoint ascii_lower (s : string) : string :=
  match s with
  | EmptyString => EmptyString
  | String c rest => String (ascii_lower_char c) (ascii_lower rest)
  end.

Definition ascii_text : Unicode := {| lower := ascii_lower |}.

End Vqa.

(** ** Vocabulary for further properties *)

Module Vocabulary.

Import Report Service.

(** The distinct elements of a list in the order of their first
    occurrence. *)
Fixpoint first_occurrences (xs : list string) : list string :=
  match xs with
  | [] => []
  | x :: rest =>
      x :: filter (fun y => negb (y =? x)) (first_occurrences rest)
  end.

(** The number of anomalies of one type. *)
Definition count_type (atype : string) (anomalies : list Anomaly) : Z :=
  len (filter (fun a => a.(anomaly_type) =? atype) anomalies).



(** The text every error of [generate_report] starts with. *)
Definition failure_prefix : string := "Report generation failed: ".

(** The storage calls [generate_report] makes before it looks at the
    session row. *)
Definition before_session_check (c : db_call) : bool :=
  match c with
  | Connect | OpenCursor | SelectSession => true
  | _ => false
  end.

(** The session row a request resolves to. *)
Definition session_of (w : World) (request : ReportRequest) : option Session :=
  find (fun s => s.(Report.session_id) =? request.(request_session_id))
       w.(sessions).

(** The rows of a table that belong to one session. *)
Definition rows_of {A : Type} (sid : string) (table : list (string * A))
  : list (string * A) :=
  filter (fun row => fst row =? sid) table.

End Vocabulary.

(** ** Further sample inputs *)

Module MoreSamples.

Import Report Service Samples.

Definition both_keywords : Vqa.VQARequest :=
  {| Vqa.session_id := "s-1";
     Vqa.question := "Is a Person holding a PHONE?";
     Vqa.frame_ids := None |}.

(** The anomalies of [four_anomalies] in another order. *)
Definition four_shuffled : list Anomaly :=
  [ anomaly "face_absence" "low" 600;
    anomaly "object_phone" "high" 60;
    anomaly "object_phone" "high" 300;
    anomaly "off_screen_gaze" "medium" 120 ].

Definition with_failing_call (w : World) (c : db_call) (msg : string)
  : World :=
  {| sessions := w.(sessions); anomalies := w.(anomalies);
     events := w.(events); reports := w.(reports);
     connections := w.(connections); next_conn_id := w.(next_conn_id);
     next_report_id := w.(next_report_id); clock := w.(clock);
     failing_call := Some (c, msg) |}.

(** The sample store with rows of a second session added to both tables. *)
Definition busier_store : World :=
  {| sessions := store.(sessions);
     anomalies :=
       (("s-9", anomaly "multi_person" "high" 30) :: store.(anomalies))%list;
     events := (store.(events) ++ [ ("s-9", (t0 + seconds 7)%Z) ])%list;
     reports := store.(reports);
     connections := store.(connections);
     next_conn_id := store.(next_conn_id);
     next_report_id := store.(next_report_id);
     clock := store.(clock);
     failing_call := store.(failing_call) |}.



(** Metrics that carry keys no template reads. *)
Definition noisy_metrics : dict value :=
  [ ("camera", VStr "front"); ("duration_sec", VInt 3);
    ("frames", VList [ VInt 1; VInt 2 ]) ].

Definition plain_metrics : dict value := [ ("duration_sec", VInt 3) ].

End MoreSamples.

(** ** Proofs: binary64 rounding *)

Module FloatProofs.

Import Report Contract.

Lemma nearest_even_close (x : Q) :
  x - (1 # 2) <= inject_Z (nearest_even x) <= x + (1 # 2).
Proof.
  pose proof (Qfloor_le x) as Hlo. pose proof (Qlt_floor x) as Hhi.
  rewrite inject_Z_plus in Hhi. change (inject_Z 1) with 1 in Hhi.
  unfold nearest_even.
  destruct (Qcompare_spec (x - inject_Z (Qfloor x)) (1 # 2)) as [H | H | H];
    [ destruct (Z.even (Qfloor x)) | | ];
    rewrite ?inject_Z_plus; change (inject_Z 1) with 1; lra.
Qed.

Lemma two_power_pos (e : Z) : 0 < 2 ^ e.
Proof. apply Qpower_0_lt. reflexivity. Qed.

Lemma two_power_succ (e : Z) : 2 ^ (e + 1) == 2 * 2 ^ e.
Proof. rewrite Qpower_plus by discriminate. change (2 ^ 1) with 2. lra. Qed.

Lemma frac_lt (n d p b : Q) :
  0 < d -> 0 < b -> n * b < p * d -> n / d < p / b.
Proof.
  intros Hd Hb H. apply Qlt_shift_div_r; [ exact Hd | ].
  setoid_replace (p / b * d) with (p * d / b) by (field; lra).
  apply Qlt_shift_div_l; assumption.
Qed.

Lemma frac_le (n d p b : Q) :
  0 < d -> 0 < b -> n * b <= p * d -> n / d <= p / b.
Proof.
  intros Hd Hb H. apply Qle_shift_div_r; [ exact Hd | ].
  setoid_replace (p / b * d) with (p * d / b) by (field; lra).
  apply Qle_shift_div_l; assumption.
Qed.

Lemma floor_log2_spec (x : Q) :
  0 < x -> 2 ^ floor_log2 x <= x /\ x < 2 ^ (floor_log2 x + 1).
Proof.
  intros Hx. destruct x as [n d].
  assert (Hn : (0 < n)%Z) by (unfold Qlt in Hx; cbn in Hx; lia).
  pose proof (Z.log2_spec n Hn) as [Hn1 Hn2].
  pose proof (Z.log2_spec (Zpos d) (Pos2Z.is_pos d)) as [Hd1 Hd2].
  pose proof (Z.log2_nonneg n) as Hln.
  pose proof (Z.log2_nonneg (Zpos d)) as Hld.
  set (la := Z.log2 n) in *. set (ld := Z.log2 (Zpos d)) in *.
  assert (Hxq : n # d == inject_Z n / inject_Z (Zpos d))
    by apply Qmake_Qdiv.
  assert (Hdq : 0 < inject_Z (Zpos d)) by reflexivity.
  assert (Hlow : 2 ^ (la - ld - 1) <= n # d).
  { replace (la - ld - 1)%Z with (la - (ld + 1))%Z by lia.
    rewrite Qpower_minus by discriminate. rewrite Hxq.
    change 2 with (inject_Z 2). rewrite <- !Zpower_Qpower by lia.
    apply frac_le.
    - rewrite <- (Zlt_Qlt 0). lia.
    - exact Hdq.
    - rewrite <- !inject_Z_mult, <- Zle_Qle. nia. }
  assert (Hhigh : n # d < 2 ^ (la - ld + 1)).
  { replace (la - ld + 1)%Z with (la + 1 - ld)%Z by lia.
    rewrite Qpower_minus by discriminate. rewrite Hxq.
    change 2 with (inject_Z 2). rewrite <- !Zpower_Qpower by lia.
    apply frac_lt.
    - exact Hdq.
    - rewrite <- (Zlt_Qlt 0). lia.
    - rewrite <- !inject_Z_mult, <- Zlt_Qlt. nia. }
  unfold floor_log2. cbn [Qnum Qden]. fold la ld.
  destruct (Qle_bool (2 ^ (la - ld)) (n # d)) eqn:E.
  - apply Qle_bool_iff in E. split; assumption.
  - assert (Hlt : n # d < 2 ^ (la - ld)).
    { apply Qnot_le_lt. intros H. apply Qle_bool_iff in H. congruence. }
    replace (la - ld - 1 + 1)%Z with (la - ld)%Z by lia.
    split; assumption.
Qed.

Lemma floor_log2_between (x : Q) (a b : Z) :
  0 < x -> 2 ^ a <= x -> x < 2 ^ b -> (a <= floor_log2 x < b)%Z.
Proof.
  intros Hx Ha Hb. destruct (floor_log2_spec x Hx) as [Hlo Hhi].
  assert (H12 : 1 < 2) by reflexivity.
  split.
  - assert (H : (a < floor_log2 x + 1)%Z); [ | lia ].
    apply (Qpower_lt_compat_l_inv 2); [ | exact H12 ].
    eapply Qle_lt_trans; eassumption.
  - apply (Qpower_lt_compat_l_inv 2); [ | exact H12 ].
    eapply Qle_lt_trans; eassumption.
Qed.

Lemma round_positive_normal (x : Q) :
  2 ^ (-1022) <= x -> x < 2 ^ 1023 ->
  exists y,
    round_positive x = Some y
    /\ x * (1 - half_ulp) <= y /\ y <= x * (1 + half_ulp).
Proof.
  intros Hlo Hhi.
  assert (Hx : 0 < x)
    by (eapply Qlt_le_trans; [ apply (two_power_pos (-1022)) | exact Hlo ]).
  destruct (floor_log2_between x _ _ Hx Hlo Hhi) as [HL1 HL2].
  destruct (floor_log2_spec x Hx) as [Hs1 Hs2].
  unfold round_positive.
  set (L := floor_log2 x) in *.
  replace (Z.max (L - 52) (-1074)) with (L - 52)%Z by lia.
  set (e := (L - 52)%Z).
  pose proof (two_power_pos e) as HP.
  assert (H52 : 2 ^ L == 4503599627370496 * 2 ^ e).
  { replace L with (52 + e)%Z by (unfold e; lia).
    rewrite Qpower_plus by discriminate. reflexivity. }
  assert (H53 : 2 ^ (L + 1) == 9007199254740992 * 2 ^ e).
  { replace (L + 1)%Z with (53 + e)%Z by (unfold e; lia).
    rewrite Qpower_plus by discriminate. reflexivity. }
  assert (Hbig : 18014398509481984 * 2 ^ e <= 2 ^ 1024).
  { setoid_replace (18014398509481984 * 2 ^ e) with (2 ^ (54 + e))
      by (rewrite Qpower_plus by discriminate; reflexivity).
    apply Qpower_le_compat_l; [ unfold e; lia | discriminate ]. }
  rewrite H52 in Hs1. rewrite H53 in Hs2.
  pose proof (nearest_even_close (x / 2 ^ e)) as [Hm1 Hm2].
  set (m := inject_Z (nearest_even (x / 2 ^ e))) in *.
  assert (Hsx : x / 2 ^ e * 2 ^ e == x) by (field; lra).
  assert (Hy1 : x - 2 ^ e * (1 # 2) <= m * 2 ^ e).
  { rewrite <- Hsx at 1.
    setoid_replace (x / 2 ^ e * 2 ^ e - 2 ^ e * (1 # 2))
      with ((x / 2 ^ e - (1 # 2)) * 2 ^ e) by ring.
    apply Qmult_le_compat_r; [ exact Hm1 | lra ]. }
  assert (Hy2 : m * 2 ^ e <= x + 2 ^ e * (1 # 2)).
  { rewrite <- Hsx at 1.
    setoid_replace (x / 2 ^ e * 2 ^ e + 2 ^ e * (1 # 2))
      with ((x / 2 ^ e + (1 # 2)) * 2 ^ e) by ring.
    apply Qmult_le_compat_r; [ exact Hm2 | lra ]. }
  set (P := 2 ^ e) in *. set (T := 2 ^ 1024) in *.
  destruct (Qle_bool T (m * P)) eqn:E.
  - apply Qle_bool_iff in E. exfalso. lra.
  - eexists. split; [ reflexivity | ].
    rewrite Qred_correct. unfold half_ulp. split; lra.
Qed.

Lemma round_binary64_zero (x : Q) : x == 0 -> round_binary64 x = Finite 0.
Proof.
  intros H. unfold round_binary64.
  destruct (Qcompare_spec x 0); [ reflexivity | lra | lra ].
Qed.

Lemma round_binary64_positive (x : Q) :
  2 ^ (-1022) <= x -> x < 2 ^ 1023 ->
  exists y,
    round_binary64 x = Finite y
    /\ x * (1 - half_ulp) <= y /\ y <= x * (1 + half_ulp).
Proof.
  intros Hlo Hhi.
  assert (Hx : 0 < x)
    by (eapply Qlt_le_trans; [ apply (two_power_pos (-1022)) | exact Hlo ]).
  destruct (round_positive_normal x Hlo Hhi) as (y & Hy & Hb).
  exists y. unfold round_binary64.
  destruct (Qcompare_spec x 0); [ lra | lra | ].
  rewrite Hy. split; [ reflexivity | exact Hb ].
Qed.

Lemma round_binary64_negative (x : Q) :
  2 ^ (-1022) <= - x -> - x < 2 ^ 1023 ->
  exists y,
    round_binary64 x = Finite y
    /\ x * (1 + half_ulp) <= y /\ y <= x * (1 - half_ulp).
Proof.
  intros Hlo Hhi.
  assert (Hx : 0 < - x)
    by (eapply Qlt_le_trans; [ apply (two_power_pos (-1022)) | exact Hlo ]).
  destruct (round_positive_normal (- x) Hlo Hhi) as (y & Hy & Hb).
  exists (- y). unfold round_binary64.
  destruct (Qcompare_spec x 0); [ lra | | lra ].
  rewrite Hy. split; [ reflexivity | ]. unfold half_ulp in *. split; lra.
Qed.

Lemma tiny_is_normal (x : Q) : (1 # 134217728) <= x -> 2 ^ (-1022) <= x.
Proof.
  intros H. apply Qle_trans with (2 ^ (-27)); [ | exact H ].
  apply Qpower_le_compat_l; [ lia | discriminate ].
Qed.

Lemma huge_is_normal (x : Q) : x < 9223372036854775808 -> x < 2 ^ 1023.
Proof.
  intros H. apply Qlt_le_trans with (2 ^ 63); [ exact H | ].
  apply Qpower_le_compat_l; [ lia | discriminate ].
Qed.

Lemma minutes_of_positive (td : Z) :
  (0 < td < 2 ^ 62)%Z ->
  exists minutes,
    float_div_int (total_seconds td) 60 = Finite minutes
    /\ 0 < minutes
    /\ Qabs (minutes - (td # 1000000) / 60)
       <= Qabs ((td # 1000000) / 60) * (1 # 2251799813685248).
Proof.
  intros [Hpos Hmax].
  assert (A1 : (1 # 1000000) <= td # 1000000)
    by (unfold Qle; cbn; lia).
  assert (A2 : td # 1000000 < 4611686018427387904)
    by (unfold Qlt; cbn; lia).
  set (x1 := td # 1000000) in *.
  unfold total_seconds. fold x1.
  destruct (round_binary64_positive x1) as (y1 & Hy1 & B1 & B2).
  { apply tiny_is_normal. lra. }
  { apply huge_is_normal. lra. }
  rewrite Hy1. cbn [float_div_int]. change (inject_Z 60) with 60.
  assert (Hx2 : y1 / 60 == y1 * (1 # 60)) by field.
  unfold half_ulp in B1, B2.
  destruct (round_binary64_positive (y1 / 60)) as (y2 & Hy2 & C1 & C2).
  { apply tiny_is_normal. rewrite Hx2. lra. }
  { apply huge_is_normal. rewrite Hx2. lra. }
  exists y2. split; [ exact Hy2 | ].
  unfold half_ulp in C1, C2. rewrite Hx2 in C1, C2.
  assert (Hexact : x1 / 60 == x1 * (1 # 60)) by field.
  split; [ lra | ].
  rewrite Hexact. rewrite (Qabs_pos (x1 * (1 # 60))) by lra.
  apply Qabs_Qle_condition. split; lra.
Qed.

Lemma minutes_of_negative (td : Z) :
  (- 2 ^ 62 < td < 0)%Z ->
  exists minutes,
    float_div_int (total_seconds td) 60 = Finite minutes
    /\ minutes < 0
    /\ Qabs (minutes - (td # 1000000) / 60)
       <= Qabs ((td # 1000000) / 60) * (1 # 2251799813685248).
Proof.
  intros [Hmin Hneg].
  assert (A1 : td # 1000000 <= - (1 # 1000000))
    by (unfold Qle; cbn; lia).
  assert (A2 : - 4611686018427387904 < td # 1000000)
    by (unfold Qlt; cbn; lia).
  set (x1 := td # 1000000) in *.
  unfold total_seconds. fold x1.
  destruct (round_binary64_negative x1) as (y1 & Hy1 & B1 & B2).
  { apply tiny_is_normal. lra. }
  { apply huge_is_normal. lra. }
  rewrite Hy1. cbn [float_div_int]. change (inject_Z 60) with 60.
  assert (Hx2 : y1 / 60 == y1 * (1 # 60)) by field.
  unfold half_ulp in B1, B2.
  destruct (round_binary64_negative (y1 / 60)) as (y2 & Hy2 & C1 & C2).
  { apply tiny_is_normal. rewrite Hx2. lra. }
  { apply huge_is_normal. rewrite Hx2. lra. }
  exists y2. split; [ exact Hy2 | ].
  unfold half_ulp in C1, C2. rewrite Hx2 in C1, C2.
  assert (Hexact : x1 / 60 == x1 * (1 # 60)) by field.
  split; [ lra | ].
  rewrite Hexact. rewrite (Qabs_neg (x1 * (1 # 60))) by lra.
  apply Qabs_Qle_condition. split; lra.
Qed.

Lemma minutes_of_zero : float_div_int (total_seconds 0) 60 = Finite 0.
Proof. reflexivity. Qed.

(** Two datetimes are less than [2^62] microseconds apart. *)
Lemma datetime_difference (started ended : Z) :
  valid_datetime started -> valid_datetime ended ->
  (- 2 ^ 62 < ended - started < 2 ^ 62)%Z.
Proof.
  unfold valid_datetime, datetime_min, datetime_max.
  change (2 ^ 62)%Z with 4611686018427387904%Z. lia.
Qed.

End FloatProofs.

(** ** Proofs: template registry and [/explain] *)

Module ExplainProofs.

Import Explain Contract.

Lemma recognized_cases (ty : string) :
  recognized ty = true ->
  ty = "off_screen_gaze" \/ ty = "object_phone" \/ ty = "object_paper"
  \/ ty = "multi_person" \/ ty = "face_absence"
  \/ ty = "excessive_head_movement".
Proof.
  unfold recognized, ANOMALY_EXPLANATIONS; cbn [dict_lookup].
  repeat match goal with
         | |- context [String.eqb ty ?k] =>
             destruct (String.eqb_spec ty k); [ subst; tauto | ]
         end.
  discriminate.
Qed.

Lemma unrecognized_cases (ty : string) :
  recognized ty = false ->
  (ty =? "off_screen_gaze") = false /\ (ty =? "object_phone") = false
  /\ (ty =? "object_paper") = false /\ (ty =? "multi_person") = false
  /\ (ty =? "face_absence") = false
  /\ (ty =? "excessive_head_movement") = false.
Proof.
  unfold recognized, ANOMALY_EXPLANATIONS; cbn [dict_lookup].
  repeat match goal with
         | |- context [String.eqb ty ?k] =>
             destruct (String.eqb ty k); [ discriminate | ]
         end.
  tauto.
Qed.

(** X2: The follow-up table answers with three questions exactly on its own
    five keys and with the generic question everywhere else. *)
Lemma followups_by_key (ty : string) :
  if str_in ty [ "off_screen_gaze"; "object_phone"; "object_paper";
                 "multi_person"; "face_absence" ]
  then length (get_followup_questions ty) = 3%nat
  else get_followup_questions ty = generic_followup.
Proof.
  unfold get_followup_questions, dict_get, questions, str_in;
    cbn [dict_lookup existsb].
  repeat match goal with
         | |- context [String.eqb ty ?k] =>
             destruct (String.eqb ty k); [ reflexivity | ]
         end.
  reflexivity.
Qed.

(** C3: [excessive_head_movement] is a key of the template registry, yet
    [get_followup_questions] has no entry for it and answers with the single
    generic question instead of three questions. *)
Theorem followups_head_movement_generic :
  recognized "excessive_head_movement" = true
  /\ get_followup_questions "excessive_head_movement"
     = [ "Can you provide context for this flag?" ]
  /\ length (get_followup_questions "excessive_head_movement") = 1%nat.
Proof. repeat split. Qed.

Lemma zero_accepted (spec : format_spec) : accepts spec (VInt 0) = true.
Proof. destruct spec; reflexivity. Qed.

Lemma float_of_int_in_range (n : Z) :
  (Z.abs n <? float_overflow_bound)%Z = true ->
  float_of_int n = Ok (round_binary64 (inject_Z n)).
Proof. intros H; unfold float_of_int; rewrite H; reflexivity. Qed.

Section WithInterpreter.

Context {I : Interpreter}.

(** A placeholder prints exactly the values its spec accepts. *)
Lemma format_value_accepts (spec : format_spec) (v : value) :
  accepts spec v = true -> exists s, format_value spec v = Ok s.
Proof.
  destruct spec, v; cbn [accepts format_value]; intros H;
    try discriminate; try (eexists; reflexivity);
    try (rewrite (float_of_int_in_range _ H); eexists; reflexivity);
    destruct b; eexists; reflexivity.
Qed.

Lemma format_value_refuses (spec : format_spec) (v : value) :
  accepts spec v = false -> exists e, format_value spec v = Raise e.
Proof.
  destruct spec, v; cbn [accepts format_value]; intros H;
    try discriminate; try (eexists; reflexivity);
    unfold float_of_int; rewrite H; eexists; reflexivity.
Qed.

Lemma argument_accepted (metrics : dict value) (key : string)
    (default : value) (spec : format_spec) :
  accepts spec default = true ->
  (forall v, dict_lookup metrics key = Some v -> accepts spec v = true) ->
  accepts spec (dict_get metrics key default) = true.
Proof.
  intros Hd Hv; unfold dict_get.
  destruct (dict_lookup metrics key) as [v|]; [ apply Hv; reflexivity | exact Hd ].
Qed.

Ltac fill_argument Hacc key placeholder :=
  match goal with
  | |- context [format_value ?spec (dict_get ?m key ?d)] =>
      let A := fresh "A" in
      let s := fresh "s" in
      let Hs := fresh "Hs" in
      assert (A : accepts spec (dict_get m key d) = true)
        by (apply argument_accepted;
            [ reflexivity
            | intros v Hv; apply (Hacc key placeholder spec v);
              [ cbn; tauto | exact Hv ] ]);
      destruct (format_value_accepts _ _ A) as [s Hs];
      rewrite Hs; clear A; cbn [bind]
  end.

(** C8, amended: for every recognized type a metrics key that is missing
    takes its default, which is 0 for every key but [window] and the label
    [1min] for [window]; and a missing key never makes substitution fail:
    substitution succeeds whenever each key that is present holds a value
    its placeholder can print. *)
Theorem missing_metrics_take_defaults (ty : string) (metrics : dict value) :
  recognized ty = true ->
  reads ty <> []
  /\ (forall key placeholder spec,
         In (key, placeholder, spec) (reads ty) ->
         dict_lookup metrics key = None ->
         dict_lookup (format_arguments ty metrics) placeholder
         = Some (default_of key))
  /\ ((forall key placeholder spec v,
          In (key, placeholder, spec) (reads ty) ->
          dict_lookup metrics key = Some v -> accepts spec v = true) ->
      exists s, substitute ty metrics = Ok s).
Proof.
  intros Hrec.
  destruct (recognized_cases ty Hrec)
    as [-> | [-> | [-> | [-> | [-> | ->]]]]];
    (split; [ discriminate | split ]).
  all: try (intros key placeholder spec Hin Hnone; cbn in Hin;
            repeat (destruct Hin as [Hin | Hin];
                    [ injection Hin as <- <- <-;
                      unfold format_arguments, dict_get; cbn;
                      rewrite Hnone; reflexivity | ]);
            contradiction).
  all: intros Hacc; unfold substitute, format_arguments;
    cbn [dict_get dict_lookup ANOMALY_EXPLANATIONS String.eqb Ascii.eqb
         Bool.eqb str_in existsb orb str_format bind].
  - fill_argument Hacc "off_screen_rate" "rate".
    fill_argument Hacc "window" "window".
    eexists; reflexivity.
  - fill_argument Hacc "duration_sec" "duration". eexists; reflexivity.
  - fill_argument Hacc "duration_sec" "duration". eexists; reflexivity.
  - fill_argument Hacc "detection_count" "count". eexists; reflexivity.
  - fill_argument Hacc "duration_sec" "duration". eexists; reflexivity.
  - fill_argument Hacc "yaw_std" "yaw".
    fill_argument Hacc "pitch_std" "pitch".
    eexists; reflexivity.
Qed.

Ltac refuse_argument Hv Hno :=
  unfold substitute, format_arguments;
  cbn [dict_get dict_lookup ANOMALY_EXPLANATIONS String.eqb Ascii.eqb
       Bool.eqb str_in existsb orb str_format bind];
  unfold dict_get; rewrite ?Hv;
  repeat match goal with
         | |- context [format_value ?spec ?v] =>
             first
               [ let e := fresh "e" in
                 let He := fresh "He" in
                 destruct (format_value_refuses spec v Hno) as [e He];
                 rewrite He
               | destruct (format_value spec v) ];
             cbn [bind]
         end;
  eexists; reflexivity.

(** X3: The converse: a key that is present with a value its placeholder
    cannot print makes the substitution raise. *)
Lemma substitute_raises_on_refused (ty : string) (metrics : dict value)
    (key placeholder : string) (spec : format_spec) (v : value) :
  recognized ty = true ->
  In (key, placeholder, spec) (reads ty) ->
  dict_lookup metrics key = Some v ->
  accepts spec v = false ->
  exists e, substitute ty metrics = Raise e.
Proof.
  intros Hrec Hin Hv Hno.
  destruct (recognized_cases ty Hrec)
    as [-> | [-> | [-> | [-> | [-> | ->]]]]];
    cbn in Hin;
    repeat (destruct Hin as [Hin | Hin];
            [ injection Hin as <- <- <-; try discriminate Hno;
              refuse_argument Hv Hno | ]);
    contradiction.
Qed.

(** C7: [explain_anomaly] returns a response for every request, and when
    the substitution of the template raises, whatever the exception, the
    explanation is the text [Anomaly detected: ] followed by the literal
    anomaly type. *)
Theorem explain_never_raises (request : ExplanationRequest) :
  exists response,
    explain_anomaly request = Ok response
    /\ (forall e,
           substitute request.(anomaly_type) request.(metrics) = Raise e ->
           response.(explanation)
           = "Anomaly detected: " ++ request.(anomaly_type))
    /\ (forall s,
           substitute request.(anomaly_type) request.(metrics) = Ok s ->
           response.(explanation) = s).
Proof.
  unfold explain_anomaly. eexists; split; [ reflexivity | ].
  cbn [explanation]; split; intros x Hx; rewrite Hx; reflexivity.
Qed.

(** C9: for an anomaly type that is no key of the template registry,
    [explain_anomaly] returns the generic sentence with the literal type
    embedded in it, and the single generic follow-up question. *)
Theorem unknown_type_generic_explanation (request : ExplanationRequest) :
  recognized request.(anomaly_type) = false ->
  exists response,
    explain_anomaly request = Ok response
    /\ response.(explanation)
       = "An anomaly of type '" ++ request.(anomaly_type)
           ++ "' was detected. Please review the session data."
    /\ contains response.(explanation) request.(anomaly_type)
    /\ response.(suggested_followup)
       = [ "Can you provide context for this flag?" ].
Proof.
  intros Hrec.
  destruct (unrecognized_cases _ Hrec) as (H1 & H2 & H3 & H4 & H5 & H6).
  assert (Hsub : substitute request.(anomaly_type) request.(metrics)
                 = Ok ("An anomaly of type '" ++ request.(anomaly_type)
                       ++ "' was detected. Please review the session data.")).
  { unfold substitute, format_arguments, dict_get, str_in,
      ANOMALY_EXPLANATIONS; cbn [dict_lookup existsb].
    rewrite H1, H2, H3, H4, H5, H6. reflexivity. }
  eexists. split; [ unfold explain_anomaly; reflexivity | ].
  cbn [explanation suggested_followup]. rewrite Hsub. cbn [try_except].
  repeat split.
  - exists "An anomaly of type '",
      "' was detected. Please review the session data.".
    reflexivity.
  - unfold get_followup_questions, dict_get, questions; cbn [dict_lookup].
    rewrite H1, H2, H3, H4, H5. reflexivity.
Qed.

End WithInterpreter.

(** C8, as stated, fails: with no metrics at all, the [window] argument of
    [off_screen_gaze] is the label [1min], not 0. *)
Lemma window_default_is_not_zero :
  ~ (forall (ty : string) (metrics : dict value)
            (key placeholder : string) (spec : format_spec),
        recognized ty = true ->
        In (key, placeholder, spec) (reads ty) ->
        dict_lookup metrics key = None ->
        dict_lookup (format_arguments ty metrics) placeholder
        = Some (VInt 0)).
Proof.
  intros H.
  specialize (H "off_screen_gaze" [] "window" "window" SpecEmpty
                eq_refl (or_intror (or_introl eq_refl)) eq_refl).
  discriminate H.
Qed.

(** With no metrics at all, [off_screen_gaze] is filled from its defaults. *)
Lemma missing_metrics_take_defaults_witness :
  recognized "off_screen_gaze" = true
  /\ dict_lookup (format_arguments "off_screen_gaze" []) "rate"
     = Some (VInt 0)
  /\ dict_lookup (format_arguments "off_screen_gaze" []) "window"
     = Some (VStr "1min")
  /\ exists s,
       substitute (I := Reference.interpreter) "off_screen_gaze" [] = Ok s.
Proof.
  destruct (missing_metrics_take_defaults (I := Reference.interpreter)
              "off_screen_gaze" [] eq_refl) as (_ & Hdefault & Hfill).
  split; [ reflexivity | ].
  split; [ apply (Hdefault "off_screen_rate" "rate" (SpecPercent 0));
           [ cbn; tauto | reflexivity ] | ].
  split; [ apply (Hdefault "window" "window" SpecEmpty);
           [ cbn; tauto | reflexivity ] | ].
  apply Hfill. intros key placeholder spec v _ Hv. discriminate Hv.
Defined.

(** A duration given as text makes the substitution raise, and the
    response carries the fallback text. *)
Lemma explain_never_raises_witness :
  exists response,
    explain_anomaly (I := Reference.interpreter) Samples.malformed_request
    = Ok response
    /\ response.(explanation) = "Anomaly detected: object_phone".
Proof.
  destruct (explain_never_raises (I := Reference.interpreter)
              Samples.malformed_request) as (response & Hok & Hfail & _).
  exists response. split; [ exact Hok | ].
  apply (Hfail (ValueError "Unknown format code 'f' for object of type 'str'")).
  reflexivity.
Defined.

(** The same text duration, seen from the substitution. *)
Lemma substitute_raises_on_refused_witness :
  recognized "object_phone" = true
  /\ dict_lookup Samples.malformed_request.(metrics) "duration_sec"
     = Some (VStr "twelve")
  /\ accepts (SpecFixed 1) (VStr "twelve") = false
  /\ exists e,
       substitute (I := Reference.interpreter) "object_phone"
         Samples.malformed_request.(metrics) = Raise e.
Proof.
  repeat (split; [ reflexivity | ]).
  apply (substitute_raises_on_refused (I := Reference.interpreter)
           "object_phone" Samples.malformed_request.(metrics)
           "duration_sec" "duration" (SpecFixed 1) (VStr "twelve"));
    [ reflexivity | cbn; tauto | reflexivity | reflexivity ].
Defined.

(** [tab_switch] is no key of the registry. *)
Lemma unknown_type_generic_explanation_witness :
  recognized "tab_switch" = false
  /\ exists response,
       explain_anomaly (I := Reference.interpreter) Samples.unknown_request
       = Ok response
       /\ response.(explanation)
          = "An anomaly of type 'tab_switch' was detected. Please review the session data."
       /\ response.(suggested_followup)
          = [ "Can you provide context for this flag?" ].
Proof.
  split; [ reflexivity | ].
  destruct (unknown_type_generic_explanation (I := Reference.interpreter)
              Samples.unknown_request eq_refl)
    as (response & Hok & Hexp & _ & Hfollow).
  exists response. split; [ exact Hok | ]. split; [ exact Hexp | exact Hfollow ].
Defined.

(** The specification's scenario: 12.5 seconds of phone use. *)
Example phone_explanation_scenario :
  exists response,
    explain_anomaly (I := Reference.interpreter) Samples.phone_request
    = Ok response
    /\ response.(explanation)
       = "A phone or mobile device was detected in the candidate's hands or nearby for 12.5 seconds. This could indicate they were using the device during the interview."
    /\ In "Detected at 2024-01-01T00:00:00Z" response.(evidence_bullets)
    /\ length response.(suggested_followup) = 3%nat.
Proof.
  eexists. split; [ reflexivity | ].
  split; [ reflexivity | ]. split; [ left; reflexivity | reflexivity ].
Qed.

End ExplainProofs.

(** ** Proofs: report aggregator and recommendation policy *)

Module ReportProofs.

Import Report Contract.

Lemma sum_counts_increment (counts : dict Z) (k : string) :
  sum_counts (dict_set counts k (dict_get counts k 0 + 1)%Z)
  = (sum_counts counts + 1)%Z.
Proof.
  induction counts as [| [k' n] rest IH]; [ reflexivity | ].
  unfold dict_get in *; cbn [dict_lookup dict_set].
  destruct (String.eqb k k'); cbn [sum_counts].
  - lia.
  - rewrite IH. lia.
Qed.

Lemma len_cons {A : Type} (x : A) (xs : list A) :
  len (x :: xs) = (len xs + 1)%Z.
Proof. unfold len; cbn [length]; lia. Qed.

Lemma len_nonneg {A : Type} (xs : list A) : (0 <= len xs)%Z.
Proof. unfold len; lia. Qed.

(** The loop invariant of the categorizing pass: the counts grow by one
    per anomaly, and the high-severity list grows, in order, by exactly the
    anomalies whose severity is [high]. *)
Lemma categorize_fold (anomalies : list Anomaly) :
  forall (counts : dict Z) (high : list Anomaly),
    sum_counts (fst (fold_left categorize_step anomalies (counts, high)))
    = (sum_counts counts + len anomalies)%Z
    /\ snd (fold_left categorize_step anomalies (counts, high))
       = (high ++ filter is_high anomalies)%list.
Proof.
  induction anomalies as [| a rest IH]; intros counts high.
  - cbn. rewrite app_nil_r. split; [ unfold len; cbn; lia | reflexivity ].
  - cbn [fold_left filter].
    replace (categorize_step (counts, high) a)
      with (dict_set counts (anomaly_type a)
              (dict_get counts (anomaly_type a) 0 + 1)%Z,
            if is_high a then (high ++ [a])%list else high)
      by (unfold categorize_step, is_high;
          destruct (severity a =? "high"); reflexivity).
    destruct (is_high a);
      match goal with
      | |- context [fold_left categorize_step rest (?c, ?h)] =>
          destruct (IH c h) as [Hs Hh]
      end;
      rewrite Hs, Hh, sum_counts_increment, len_cons.
    + rewrite <- app_assoc. split; [ lia | reflexivity ].
    + split; [ lia | reflexivity ].
Qed.

Lemma categorize_counts (anomalies : list Anomaly) :
  sum_counts (fst (categorize anomalies)) = len anomalies.
Proof.
  destruct (categorize_fold anomalies [] []) as [H _].
  etransitivity; [ exact H | reflexivity ].
Qed.

Lemma categorize_high (anomalies : list Anomaly) :
  snd (categorize anomalies) = filter is_high anomalies.
Proof.
  destruct (categorize_fold anomalies [] []) as [_ H].
  etransitivity; [ exact H | reflexivity ].
Qed.

Lemma count_high_filter (anomalies : list Anomaly) :
  count_high anomalies = len (filter is_high anomalies).
Proof.
  induction anomalies as [| a rest IH]; [ reflexivity | ].
  cbn [count_high filter]. unfold is_high at 1.
  destruct (severity a =? "high"); rewrite IH.
  - rewrite len_cons. lia.
  - lia.
Qed.

(** The branches of [get_overall_recommendation] on a non-empty list, in
    terms of the number of high-severity records. *)
Lemma recommendation_nonempty (a : Anomaly) (rest : list Anomaly)
    (duration : value) :
  get_overall_recommendation (a :: rest) duration
  = if (3 <=? count_high (a :: rest))%Z then multiple_high_message
    else if (0 <? count_high (a :: rest))%Z then brief_followup_message
    else minor_flags_message.
Proof.
  unfold get_overall_recommendation.
  rewrite <- count_high_filter, Z.geb_leb, Z.gtb_ltb. reflexivity.
Qed.

(** C5: the recommendation is the message the ranked rules select, and
    the rules select no other message: an empty list gives the proceed
    message; otherwise three or more high-severity records give the
    multiple-flags message, one or two give the brief follow-up message, and
    none gives the minor-flags message.  The duration plays no part. *)
Theorem recommendation_follows_ranked_rules (anomalies : list Anomaly)
    (duration : value) :
  recommends anomalies (get_overall_recommendation anomalies duration)
  /\ (forall message,
         recommends anomalies message ->
         message = get_overall_recommendation anomalies duration).
Proof.
  destruct anomalies as [| a rest].
  - split; [ constructor | ]. intros message H.
    inversion H; subst; [ reflexivity | congruence .. ].
  - rewrite recommendation_nonempty.
    assert (Hnn : (0 <= count_high (a :: rest))%Z)
      by (rewrite count_high_filter; apply len_nonneg).
    split.
    + destruct (Z.leb_spec 3 (count_high (a :: rest)));
        [ apply rule_multiple_high; [ discriminate | assumption ] | ].
      destruct (Z.ltb_spec 0 (count_high (a :: rest))).
      * apply rule_some_high; [ discriminate | lia ].
      * apply rule_only_minor; [ discriminate | lia ].
    + intros message H.
      inversion H as [ | l Hne Hc | l Hne Hc | l Hne Hc ]; subst.
      * destruct (Z.leb_spec 3 (count_high (a :: rest)));
          [ reflexivity | lia ].
      * destruct (Z.leb_spec 3 (count_high (a :: rest))); [ lia | ].
        destruct (Z.ltb_spec 0 (count_high (a :: rest)));
          [ reflexivity | lia ].
      * destruct (Z.leb_spec 3 (count_high (a :: rest))); [ lia | ].
        destruct (Z.ltb_spec 0 (count_high (a :: rest)));
          [ lia | reflexivity ].
Qed.

Lemma high_severity_of_filter (anomalies : list Anomaly) :
  high_severity_of anomalies = filter is_high anomalies.
Proof.
  induction anomalies as [| a rest IH]; [ reflexivity | ].
  cbn [high_severity_of filter]. unfold is_high at 1.
  destruct (severity a =? "high"); rewrite IH; reflexivity.
Qed.

(** The duration of a session with both timestamps, inside the range of
    [datetime]: a finite float within two roundings of the exact quotient,
    with the sign of the difference. *)
Lemma minutes_between (started ended : Z) :
  valid_datetime started -> valid_datetime ended ->
  exists minutes : Q,
    float_div_int (total_seconds (ended - started)) 60 = Finite minutes
    /\ Qabs (minutes - exact_minutes started ended)
       <= Qabs (exact_minutes started ended) * two_roundings
    /\ ((ended < started)%Z -> minutes < 0)
    /\ ((started < ended)%Z -> 0 < minutes)
    /\ (ended = started -> minutes = 0).
Proof.
  intros Hs He.
  pose proof (FloatProofs.datetime_difference started ended Hs He) as Hd.
  unfold exact_minutes, two_roundings.
  destruct (Z.lt_trichotomy (ended - started) 0) as [Hneg | [Hzero | Hpos]].
  - destruct (FloatProofs.minutes_of_negative (ended - started))
      as (minutes & Hm & Hsign & Hclose); [ lia | ].
    exists minutes. split; [ exact Hm | ]. split; [ exact Hclose | ].
    split; [ intros _; exact Hsign | ]. split; intros; lia.
  - rewrite Hzero. exists 0. split; [ reflexivity | ].
    split; [ vm_compute; discriminate | ].
    split; [ | split ]; intros; try lia. reflexivity.
  - destruct (FloatProofs.minutes_of_positive (ended - started))
      as (minutes & Hm & Hsign & Hclose); [ lia | ].
    exists minutes. split; [ exact Hm | ]. split; [ exact Hclose | ].
    split; [ | split ]; intros; try lia. exact Hsign.
Qed.

Section WithInterpreter.

Context {I : Interpreter}.

(** The header of the summary can always be printed: the duration is a
    float or the integer 0. *)
Lemma duration_prints (session : Session) :
  exists shown, format_value (SpecFixed 1) (duration_of session) = Ok shown.
Proof.
  unfold duration_of.
  destruct (ended_at session), (started_at session); eexists; reflexivity.
Qed.

(** [generate_report_summary] always returns, and every field but the
    text is determined as follows. *)
Lemma summary_fields (session : Session) (anomalies : list Anomaly)
    (event_summary : EventSummary) :
  exists text,
    generate_report_summary session anomalies event_summary
    = Ok {| summary := text;
            metrics :=
              {| duration_minutes := duration_of session;
                 total_anomalies := len anomalies;
                 high_severity_count := len (snd (categorize anomalies));
                 anomaly_breakdown := fst (categorize anomalies);
                 metrics_event_count := event_summary.(event_count) |};
            high_priority_flags :=
              map flag_of (snd (categorize anomalies)) |}.
Proof.
  unfold generate_report_summary.
  destruct (categorize anomalies) as [counts high].
  destruct (duration_prints session) as [shown Hshown].
  rewrite Hshown. cbn [bind fst snd]. eexists; reflexivity.
Qed.

(** Each flag built from a record carries that record's type, description
    and detection time. *)
Lemma flags_describe (anomalies : list Anomaly) :
  Forall2 describes (map flag_of anomalies) anomalies.
Proof.
  induction anomalies as [| a rest IH]; cbn [map]; constructor;
    [ repeat split | exact IH ].
Qed.

(** C4: the summary the aggregator returns has breakdown counts that sum
    to the total anomaly count, a high-severity count equal to the number
    of records whose severity is [high], and a flag list that holds exactly
    the high-severity anomalies, in order and untruncated: one flag for
    each record with severity [high], in the order of the records, with
    the type, the description and the ISO detection time of its record. *)
Theorem summary_invariants (session : Session) (anomalies : list Anomaly)
    (event_summary : EventSummary) :
  exists r,
    generate_report_summary session anomalies event_summary = Ok r
    /\ sum_counts r.(metrics).(anomaly_breakdown)
       = r.(metrics).(total_anomalies)
    /\ r.(metrics).(total_anomalies) = len anomalies
    /\ r.(metrics).(high_severity_count) = count_high anomalies
    /\ r.(high_priority_flags) = map flag_of (filter is_high anomalies)
    /\ len r.(high_priority_flags) = r.(metrics).(high_severity_count)
    /\ Forall2 describes r.(high_priority_flags) (high_severity_of anomalies).
Proof.
  destruct (summary_fields session anomalies event_summary) as [text H].
  eexists; split; [ exact H | ].
  cbn [metrics anomaly_breakdown total_anomalies high_severity_count
       high_priority_flags].
  rewrite categorize_counts, categorize_high, count_high_filter.
  repeat split.
  - unfold len. rewrite length_map. reflexivity.
  - rewrite (high_severity_of_filter anomalies). apply flags_describe.
Qed.

(** C6: with both timestamps present the duration is the float
    [(ended_at - started_at).total_seconds() / 60]: the difference in
    microseconds divided by [10^6] and the quotient divided by 60, each
    division rounded to binary64.  For timestamps in the range of
    [datetime] it is a finite float within [2^-51], relatively, of the
    exact [(ended_at - started_at) / 60]; it is negative when the end
    precedes the start, positive when the end follows it and zero when the
    two coincide.  With either timestamp absent it is the integer 0; and
    the aggregator returns in every case, carrying that duration
    unclamped. *)
Theorem duration_in_minutes (session : Session) :
  (forall started ended : Z,
      session.(started_at) = Some started ->
      session.(ended_at) = Some ended ->
      duration_of session
      = VFloat (float_div_int
                  (round_binary64 ((ended - started) # 1000000)) 60)
      /\ (valid_datetime started -> valid_datetime ended ->
          exists minutes : Q,
            duration_of session = VFloat (Finite minutes)
            /\ Qabs (minutes - exact_minutes started ended)
               <= Qabs (exact_minutes started ended) * two_roundings
            /\ ((ended < started)%Z -> minutes < 0)
            /\ ((started < ended)%Z -> 0 < minutes)
            /\ (ended = started -> minutes = 0)))
  /\ (session.(started_at) = None \/ session.(ended_at) = None ->
      duration_of session = VInt 0)
  /\ (forall anomalies event_summary,
         exists r,
           generate_report_summary session anomalies event_summary = Ok r
           /\ r.(metrics).(duration_minutes) = duration_of session).
Proof.
  split; [ | split ].
  - intros started ended Hs He.
    unfold duration_of. rewrite Hs, He.
    split; [ reflexivity | ]. intros Hvs Hve.
    destruct (minutes_between started ended Hvs Hve)
      as (minutes & Hm & Hrest).
    exists minutes. rewrite Hm. split; [ reflexivity | exact Hrest ].
  - unfold duration_of. intros [H | H]; rewrite H;
      [ destruct (ended_at session) | ]; reflexivity.
  - intros anomalies event_summary.
    destruct (summary_fields session anomalies event_summary) as [text H].
    eexists; split; [ exact H | reflexivity ].
Qed.

(** C10: two event summaries with the same event count give the same
    report summary, whatever their first and last event times. *)
Theorem summary_ignores_event_times (session : Session)
    (anomalies : list Anomaly) (es1 es2 : EventSummary) :
  es1.(event_count) = es2.(event_count) ->
  generate_report_summary session anomalies es1
  = generate_report_summary session anomalies es2.
Proof.
  intros H. unfold generate_report_summary.
  destruct (categorize anomalies) as [counts high].
  rewrite H. reflexivity.
Qed.

End WithInterpreter.

(** Four high-severity anomalies: the text lists three descriptions, the
    flag list holds all four. *)
Lemma summary_invariants_witness :
  exists r,
    generate_report_summary (I := Reference.interpreter)
      Samples.session_25min Samples.four_high Samples.events_a = Ok r
    /\ r.(metrics).(high_severity_count) = 4%Z
    /\ length r.(high_priority_flags) = 4%nat
    /\ sum_counts r.(metrics).(anomaly_breakdown) = 4%Z
    /\ Forall2 (describes (I := Reference.interpreter))
         r.(high_priority_flags) Samples.four_high
    /\ map flag_description r.(high_priority_flags)
       = [ "object_phone flagged"; "multi_person flagged";
           "object_paper flagged"; "object_phone flagged" ].
Proof.
  destruct (summary_invariants (I := Reference.interpreter)
              Samples.session_25min Samples.four_high Samples.events_a)
    as (r & Hok & Hsum & Htotal & Hhigh & Hflags & _ & Hdescribe).
  exists r. split; [ exact Hok | ].
  split; [ rewrite Hhigh; reflexivity | ].
  split; [ rewrite Hflags; reflexivity | ].
  split; [ rewrite Hsum, Htotal; reflexivity | ].
  split; [ exact Hdescribe | rewrite Hflags; reflexivity ].
Defined.

(** A session of 25 minutes, one that never ended, one that ended 90
    seconds before it started, and one of three seconds, whose 0.05
    minutes are held as the float just above 0.05 and print as 0.1. *)
Lemma duration_in_minutes_witness :
  duration_of Samples.session_25min = VFloat (Finite 25)
  /\ duration_of Samples.session_unfinished = VInt 0
  /\ (exists minutes : Q,
        duration_of Samples.session_reversed = VFloat (Finite minutes)
        /\ minutes < 0
        /\ Qabs (minutes - exact_minutes (Samples.t0 + Samples.seconds 90)
                                         Samples.t0)
           <= Qabs (exact_minutes (Samples.t0 + Samples.seconds 90)
                                  Samples.t0) * two_roundings
        /\ exact_minutes (Samples.t0 + Samples.seconds 90) Samples.t0
           == - (3 # 2))
  /\ duration_of Samples.session_3s
     = VFloat (Finite (3602879701896397 # 72057594037927936))
  /\ (1 # 20) < 3602879701896397 # 72057594037927936
  /\ format_value (I := Reference.interpreter) (SpecFixed 1)
       (duration_of Samples.session_3s) = Ok "0.1".
Proof.
  split; [ vm_compute; reflexivity | ].
  destruct (duration_in_minutes (I := Reference.interpreter)
              Samples.session_unfinished) as (_ & Habsent & _).
  split; [ apply Habsent; right; reflexivity | ].
  destruct (duration_in_minutes (I := Reference.interpreter)
              Samples.session_reversed) as (Hpresent & _ & _).
  destruct (Hpresent _ _ eq_refl eq_refl) as (_ & Hrange).
  destruct Hrange as (minutes & Hd & Hclose & Hneg & _);
    [ split; apply Z.leb_le; reflexivity
    | split; apply Z.leb_le; reflexivity | ].
  split; [ | split; [ vm_compute; reflexivity | ] ].
  - exists minutes. split; [ exact Hd | ].
    split; [ apply Hneg; reflexivity | ].
    split; [ exact Hclose | reflexivity ].
  - split; vm_compute; reflexivity.
Defined.

(** Two event summaries that differ in their first and last event only. *)
Lemma summary_ignores_event_times_witness :
  Samples.events_a.(event_count) = Samples.events_b.(event_count)
  /\ Samples.events_a <> Samples.events_b
  /\ generate_report_summary (I := Reference.interpreter)
       Samples.session_25min Samples.four_anomalies Samples.events_a
     = generate_report_summary (I := Reference.interpreter)
         Samples.session_25min Samples.four_anomalies Samples.events_b.
Proof.
  split; [ reflexivity | ]. split; [ discriminate | ].
  apply (summary_ignores_event_times (I := Reference.interpreter)).
  reflexivity.
Defined.

(** The specification's scenario: 1500 seconds, two high [object_phone]
    anomalies, one medium [off_screen_gaze], one low [face_absence]. *)
Example report_scenario :
  exists r,
    generate_report_summary (I := Reference.interpreter)
      Samples.session_25min Samples.four_anomalies Samples.events_a = Ok r
    /\ r.(metrics)
       = {| duration_minutes := VFloat (Finite 25);
            total_anomalies := 4;
            high_severity_count := 2;
            anomaly_breakdown :=
              [ ("object_phone", 2%Z); ("off_screen_gaze", 1%Z);
                ("face_absence", 1%Z) ];
            metrics_event_count := 12 |}
    /\ get_overall_recommendation Samples.four_anomalies
         r.(metrics).(duration_minutes)
       = brief_followup_message.
Proof.
  eexists. split; [ reflexivity | ].
  split; [ reflexivity | ]. split; reflexivity.
Qed.

End ReportProofs.

(** ** Proofs: [/generate_report] and its connection *)

Module ServiceProofs.

Import Report Service.

(** The connection [get_db] opens in world [w]. *)
Lemma opened_connection_explicit (w : World) :
  w.(failing_call) = None ->
  get_db w
  = (Ok w.(next_conn_id),
     with_connections w
       ({| conn_id := w.(next_conn_id); pending := [] |} :: w.(connections))
       (S w.(next_conn_id))).
Proof. intros H. unfold get_db, storage_call. rewrite H. reflexivity. Qed.

Lemma conn_id_add_pending (n : nat) (row : ReportRow) (c : Connection) :
  (add_pending n row c).(conn_id) = c.(conn_id).
Proof. unfold add_pending. destruct (Nat.eqb (conn_id c) n); reflexivity. Qed.

Lemma conn_id_clear_pending (n : nat) (c : Connection) :
  (clear_pending n c).(conn_id) = c.(conn_id).
Proof. unfold clear_pending. destruct (Nat.eqb (conn_id c) n); reflexivity. Qed.

Lemma add_pending_others (n : nat) (row : ReportRow) (cs : list Connection) :
  ids_below n cs -> map (add_pending n row) cs = cs.
Proof.
  induction 1 as [| c cs Hc _ IH]; [ reflexivity | ].
  cbn [map]. rewrite IH. unfold add_pending.
  destruct (Nat.eqb_spec (conn_id c) n); [ lia | reflexivity ].
Qed.

Lemma clear_pending_others (n : nat) (cs : list Connection) :
  ids_below n cs -> map (clear_pending n) cs = cs.
Proof.
  induction 1 as [| c cs Hc _ IH]; [ reflexivity | ].
  cbn [map]. rewrite IH. unfold clear_pending.
  destruct (Nat.eqb_spec (conn_id c) n); [ lia | reflexivity ].
Qed.

Lemma pending_of_others (n : nat) (cs : list Connection) :
  ids_below n cs -> pending_of n cs = [].
Proof.
  induction 1 as [| c cs Hc _ IH]; [ reflexivity | ].
  unfold pending_of in *. cbn [flat_map]. rewrite IH.
  destruct (Nat.eqb_spec (conn_id c) n); [ lia | reflexivity ].
Qed.

Lemma close_keeps_others (n : nat) (cs : list Connection) :
  ids_below n cs ->
  filter (fun c => negb (Nat.eqb c.(conn_id) n)) cs = cs.
Proof.
  induction 1 as [| c cs Hc _ IH]; [ reflexivity | ].
  cbn [filter]. rewrite IH.
  destruct (Nat.eqb_spec (conn_id c) n); [ lia | reflexivity ].
Qed.

Section WithInterpreter.

Context {I : Interpreter}.

(** C1: when the session id resolves to no session (and the store answers
    every call), the handler raises its 404 inside the [try] block, the
    [except Exception] clause catches it, and the caller receives status
    500; no report row is written or left pending. *)
Theorem missing_session_surfaces_as_500 (request : ReportRequest)
    (w : World) :
  w.(failing_call) = None ->
  find (fun s => s.(session_id) =? request.(request_session_id))
       w.(sessions) = None ->
  generate_report request w
  = (Raise (HTTPException 500
              ("Report generation failed: "
                 ++ http_exception_str 404 "Session not found")),
     with_connections w
       ({| conn_id := w.(next_conn_id); pending := [] |} :: w.(connections))
       (S w.(next_conn_id))).
Proof.
  intros Hcall Hfind.
  unfold generate_report, io_try, io_bind.
  rewrite (opened_connection_explicit w Hcall).
  unfold cursor, fetch_session, storage_call, with_connections;
    cbn [failing_call].
  rewrite Hcall. cbn [sessions]. rewrite Hfind. reflexivity.
Qed.

Ltac step_handler H :=
  cbn [failing_call sessions anomalies events reports connections
       next_conn_id next_report_id clock db_call_eqb] in H.

Ltac unfold_handler H :=
  unfold generate_report, io_try, io_bind, io_lift, io_ret, io_raise,
    get_db, cursor, fetch_session, fetch_anomalies, fetch_event_summary,
    insert_report, commit, close, utcnow, storage_call,
    with_connections, with_reports, with_next_report_id in H;
  step_handler H.

(** C2: the handler closes its connection only on the path that returns
    normally.  Whenever it ends with an error after [get_db] succeeded, be
    it the 404 for a missing session or a failing storage call, the
    connection it opened is still open in the world it leaves behind. *)
Theorem connection_left_open_on_error (request : ReportRequest)
    (w w' : World) (e : exn) :
  generate_report request w = (Raise e, w') ->
  (forall msg, w.(failing_call) <> Some (Connect, msg)) ->
  length w'.(connections) = S (length w.(connections))
  /\ exists c, In c w'.(connections) /\ c.(conn_id) = w.(next_conn_id).
Proof.
  intros Hrun Hconnect.
  destruct w as [ss an ev rp cs nc nr ck fc]; cbn [failing_call] in Hconnect.
  cbn [connections next_conn_id].
  unfold_handler Hrun.
  destruct fc as [[c msg] |]; [ destruct c | ];
    step_handler Hrun;
    try (exfalso; apply (Hconnect msg); reflexivity);
    repeat match type of Hrun with
           | context [find ?f ?l] => destruct (find f l); step_handler Hrun
           | context [generate_report_summary ?s ?a ?es] =>
               destruct (generate_report_summary s a es); step_handler Hrun
           end;
    cbn [map] in Hrun;
    try discriminate Hrun;
    injection Hrun as <- <-; cbn [connections length];
    rewrite ?length_map;
    (split; [ reflexivity | ]);
    eexists; (split; [ left; reflexivity | ]);
    rewrite ?conn_id_clear_pending, ?conn_id_add_pending; reflexivity.
Qed.

(** X1: The path that returns normally does release the connection it opened,
    and commits exactly one report row, under the id it returns. *)
Lemma connection_released_on_success (request : ReportRequest)
    (w w' : World) (response : ReportResponse) :
  generate_report request w = (Ok response, w') ->
  ids_below w.(next_conn_id) w.(connections) ->
  w'.(connections) = w.(connections)
  /\ exists row,
       w'.(reports) = (w.(reports) ++ [row])%list
       /\ row.(id) = response.(report_id)
       /\ row.(row_session_id) = request.(request_session_id).
Proof.
  intros Hrun Hids.
  destruct w as [ss an ev rp cs nc nr ck fc];
    cbn [connections next_conn_id reports] in *.
  unfold_handler Hrun.
  destruct fc as [[c msg] |]; [ destruct c | ];
    step_handler Hrun;
    repeat match type of Hrun with
           | context [find ?f ?l] => destruct (find f l); step_handler Hrun
           | context [generate_report_summary ?s ?a ?es] =>
               destruct (generate_report_summary s a es); step_handler Hrun
           end;
    cbn [map] in Hrun;
    try discriminate Hrun.
  injection Hrun as <- <-. cbn [connections reports report_id].
  rewrite (add_pending_others _ _ _ Hids), (clear_pending_others _ _ Hids).
  unfold add_pending, clear_pending, pending_of.
  repeat progress (cbn [conn_id pending filter flat_map negb app];
                   rewrite ?Nat.eqb_refl).
  fold (pending_of nc cs).
  rewrite (pending_of_others _ _ Hids), (close_keeps_others _ _ Hids).
  split; [ reflexivity | ].
  eexists; split; [ reflexivity | split; reflexivity ].
Qed.

End WithInterpreter.

(** A request for a session the sample store does not hold. *)
Lemma missing_session_surfaces_as_500_witness :
  Samples.store.(failing_call) = None
  /\ find (fun s => s.(session_id) =? "nope") Samples.store.(sessions) = None
  /\ fst (generate_report (I := Reference.interpreter)
            (Samples.request_for "nope") Samples.store)
     = Raise (HTTPException 500
                "Report generation failed: 404: Session not found")
  /\ (snd (generate_report (I := Reference.interpreter)
             (Samples.request_for "nope") Samples.store)).(reports) = [].
Proof.
  split; [ reflexivity | ]. split; [ reflexivity | ].
  rewrite (missing_session_surfaces_as_500 (I := Reference.interpreter)
             (Samples.request_for "nope") Samples.store eq_refl eq_refl).
  split; reflexivity.
Defined.

(** The same request leaves one connection open where none was. *)
Lemma connection_left_open_on_error_witness :
  generate_report (I := Reference.interpreter)
    (Samples.request_for "nope") Samples.store
  = (Raise (HTTPException 500
              "Report generation failed: 404: Session not found"),
     with_connections Samples.store
       [ {| conn_id := 0; pending := [] |} ] 1)
  /\ length Samples.store.(connections) = 0%nat
  /\ length (with_connections Samples.store
               [ {| conn_id := 0; pending := [] |} ] 1).(connections)
     = 1%nat.
Proof.
  split; [ reflexivity | ]. split; [ reflexivity | ].
  refine (proj1 (connection_left_open_on_error (I := Reference.interpreter)
                   (Samples.request_for "nope") Samples.store _ _
                   eq_refl _)).
  intros msg; discriminate.
Defined.

(** A request for the session the sample store holds: the connection is
    closed again and one report row is committed. *)
Lemma connection_released_on_success_witness :
  let out := generate_report (I := Reference.interpreter)
               (Samples.request_for "s-1") Samples.store in
  raises (fst out) = false
  /\ (snd out).(connections) = []
  /\ length (snd out).(reports) = 1%nat.
Proof.
  cbv zeta.
  destruct (generate_report (I := Reference.interpreter)
              (Samples.request_for "s-1") Samples.store)
    as [[response | e] w'] eqn:Hrun.
  - destruct (connection_released_on_success (I := Reference.interpreter)
                _ _ _ _ Hrun (Forall_nil _))
      as (Hconn & row & Hrows & _).
    cbn [fst snd raises]. rewrite Hconn, Hrows.
    repeat split.
  - vm_compute in Hrun. discriminate Hrun.
Defined.

End ServiceProofs.

(** ** Proofs: [/vqa] *)

Module VqaProofs.

Import Vqa Contract.

Lemma starts_with_spec (prefix s : string) :
  starts_with prefix s = true <-> exists rest, s = prefix ++ rest.
Proof.
  revert s; induction prefix as [| a prefix IH]; intros s.
  - split; [ intros _; exists s; reflexivity | reflexivity ].
  - destruct s as [| b s]; cbn [starts_with append].
    + split; [ discriminate | intros [rest H]; discriminate H ].
    + rewrite andb_true_iff, Ascii.eqb_eq, IH. split.
      * intros [-> [rest ->]]. exists rest; reflexivity.
      * intros [rest H]. injection H as -> ->. split; [ reflexivity | ].
        exists rest; reflexivity.
Qed.

Lemma str_contains_unfold (needle s : string) :
  str_contains needle s
  = starts_with needle s
    || match s with
       | EmptyString => false
       | String _ rest => str_contains needle rest
       end.
Proof. destruct s; reflexivity. Qed.

(** The search finds exactly the needles that occur. *)
Lemma str_contains_spec (needle s : string) :
  str_contains needle s = true <-> contains s needle.
Proof.
  unfold contains. split.
  - induction s as [| c s IH]; rewrite str_contains_unfold, orb_true_iff.
    + intros [H | H]; [ | discriminate ].
      apply starts_with_spec in H as [rest H].
      exists "", rest. exact H.
    + intros [H | H].
      * apply starts_with_spec in H as [rest H].
        exists "", rest. exact H.
      * destruct (IH H) as (before & after & ->).
        exists (String c before), after. reflexivity.
  - intros (before & after & ->).
    induction before as [| c before IH]; rewrite str_contains_unfold.
    + apply orb_true_iff; left. apply starts_with_spec.
      exists after; reflexivity.
    + apply orb_true_iff; right. exact IH.
Qed.

Lemma str_contains_false (needle s : string) :
  str_contains needle s = false <-> ~ contains s needle.
Proof.
  rewrite <- str_contains_spec.
  destruct (str_contains needle s); split; congruence.
Qed.

Section WithUnicode.

Context {U : Unicode}.

(** X4: The keywords are tried in the order [person], [phone], [looking] on
    the lower-cased question, as substrings: the first one that occurs
    decides answer and confidence, whatever else the question holds, and a
    question with none of them gets the fallback answer at confidence 0.5. *)
Theorem vqa_keyword_priority (request : VQARequest) :
  let q := lower request.(question) in
  let r := visual_question_answering request in
  (contains q "person" ->
   r.(answer) = one_person_answer /\ r.(confidence) = 92 # 100)
  /\ (~ contains q "person" -> contains q "phone" ->
      r.(answer) = phone_answer /\ r.(confidence) = 78 # 100)
  /\ (~ contains q "person" -> ~ contains q "phone" ->
      contains q "looking" ->
      r.(answer) = looking_answer /\ r.(confidence) = 85 # 100)
  /\ (~ contains q "person" -> ~ contains q "phone" ->
      ~ contains q "looking" ->
      r.(answer) = unable_answer /\ r.(confidence) = 5 # 10).
Proof.
  cbv zeta. unfold visual_question_answering.
  repeat split; intros;
    repeat match goal with
           | H : contains _ _ |- _ =>
               apply str_contains_spec in H; rewrite H
           | H : ~ contains _ _ |- _ =>
               apply str_contains_false in H; rewrite H
           end;
    reflexivity.
Qed.

End WithUnicode.

(** A question that names both a person and a phone, in capitals. *)
Lemma vqa_keyword_priority_witness :
  contains (ascii_lower MoreSamples.both_keywords.(question)) "person"
  /\ contains (ascii_lower MoreSamples.both_keywords.(question)) "phone"
  /\ (visual_question_answering (U := ascii_text)
        MoreSamples.both_keywords).(answer) = one_person_answer.
Proof.
  assert (Hperson :
            contains (ascii_lower MoreSamples.both_keywords.(question))
                     "person")
    by (apply str_contains_spec; reflexivity).
  split; [ exact Hperson | ].
  split; [ apply str_contains_spec; reflexivity | ].
  apply (vqa_keyword_priority (U := ascii_text) MoreSamples.both_keywords).
  exact Hperson.
Defined.

End VqaProofs.

(** ** Proofs: the breakdown, the summary text and the recommendation *)

Module AggregatorProofs.

Import Report Contract Vocabulary.

Lemma dict_lookup_set_same {V : Type} (d : dict V) (k : string) (v : V) :
  dict_lookup (dict_set d k v) k = Some v.
Proof.
  induction d as [| [k' v'] rest IH]; cbn [dict_set dict_lookup].
  - rewrite String.eqb_refl. reflexivity.
  - destruct (String.eqb k k') eqn:E; cbn [dict_lookup].
    + rewrite String.eqb_refl. reflexivity.
    + rewrite E. exact IH.
Qed.

Lemma dict_lookup_set_other {V : Type} (d : dict V) (k k' : string) (v : V) :
  k' <> k -> dict_lookup (dict_set d k v) k' = dict_lookup d k'.
Proof.
  intros Hne.
  induction d as [| [k0 v0] rest IH]; cbn [dict_set dict_lookup].
  - destruct (String.eqb_spec k' k); [ contradiction | reflexivity ].
  - destruct (String.eqb_spec k k0) as [-> | Hk]; cbn [dict_lookup].
    + destruct (String.eqb_spec k' k0); [ contradiction | reflexivity ].
    + destruct (String.eqb k' k0); [ reflexivity | exact IH ].
Qed.

Lemma keys_dict_set {V : Type} (d : dict V) (k : string) (v : V) :
  map fst (dict_set d k v)
  = if str_in k (map fst d) then map fst d else (map fst d ++ [k])%list.
Proof.
  unfold str_in.
  induction d as [| [k' v'] rest IH]; cbn [dict_set map fst existsb app].
  - reflexivity.
  - destruct (String.eqb k k') eqn:E; cbn [map fst orb].
    + apply String.eqb_eq in E as ->. reflexivity.
    + rewrite IH. destruct (existsb (String.eqb k) (map fst rest));
        reflexivity.
Qed.

Lemma categorize_step_counts (counts : dict Z) (high : list Anomaly)
    (a : Anomaly) :
  fst (categorize_step (counts, high) a)
  = dict_set counts (anomaly_type a)
      (dict_get counts (anomaly_type a) 0 + 1)%Z.
Proof.
  unfold categorize_step. destruct (severity a =? "high"); reflexivity.
Qed.

Lemma fold_categorize_pair (anomalies : list Anomaly)
    (acc : dict Z * list Anomaly) (a : Anomaly) :
  fold_left categorize_step anomalies (categorize_step acc a)
  = fold_left categorize_step anomalies
      (fst (categorize_step acc a), snd (categorize_step acc a)).
Proof. destruct (categorize_step acc a); reflexivity. Qed.

(** Per type, the pass adds the number of anomalies of that type to the
    count it started from. *)
Lemma categorize_fold_per_type (anomalies : list Anomaly) :
  forall (counts : dict Z) (high : list Anomaly) (atype : string),
    dict_get (fst (fold_left categorize_step anomalies (counts, high)))
             atype 0%Z
    = (dict_get counts atype 0 + count_type atype anomalies)%Z.
Proof.
  induction anomalies as [| a rest IH]; intros counts high atype.
  - unfold count_type, len; cbn. lia.
  - cbn [fold_left]. rewrite fold_categorize_pair, IH, categorize_step_counts.
    unfold count_type; cbn [filter]. unfold dict_get at 1.
    destruct (String.eqb_spec (anomaly_type a) atype) as [<- | Hne].
    + rewrite dict_lookup_set_same, ReportProofs.len_cons. lia.
    + rewrite dict_lookup_set_other by congruence.
      fold (dict_get counts atype 0%Z). lia.
Qed.

Lemma filter_filter {A : Type} (f g : A -> bool) (l : list A) :
  filter f (filter g l) = filter (fun x => f x && g x) l.
Proof.
  induction l as [| x l IH]; [ reflexivity | ].
  cbn [filter]. destruct (g x); cbn [filter]; rewrite IH;
    [ rewrite andb_true_r | rewrite andb_false_r ]; reflexivity.
Qed.

Lemma str_in_app (x : string) (xs ys : list string) :
  str_in x (xs ++ ys) = str_in x xs || str_in x ys.
Proof. unfold str_in. apply existsb_app. Qed.

(** The keys the pass ends with: the keys it started from, then the new
    types in the order of their first occurrence. *)
Lemma categorize_fold_keys (anomalies : list Anomaly) :
  forall (counts : dict Z) (high : list Anomaly),
    map fst (fst (fold_left categorize_step anomalies (counts, high)))
    = (map fst counts
       ++ filter (fun y => negb (str_in y (map fst counts)))
                 (first_occurrences (map anomaly_type anomalies)))%list.
Proof.
  induction anomalies as [| a rest IH]; intros counts high.
  - cbn. rewrite app_nil_r. reflexivity.
  - cbn [fold_left map first_occurrences filter].
    rewrite fold_categorize_pair, IH, categorize_step_counts, keys_dict_set.
    rewrite filter_filter.
    destruct (str_in (anomaly_type a) (map fst counts)) eqn:Hin;
      cbn [negb].
    + f_equal. apply filter_ext_in. intros y _.
      destruct (String.eqb_spec y (anomaly_type a)) as [-> | Hne];
        [ rewrite Hin; reflexivity | rewrite andb_true_r; reflexivity ].
    + rewrite <- app_assoc. cbn [app]. do 2 f_equal.
      apply filter_ext_in. intros y _.
      rewrite str_in_app, negb_orb. unfold str_in at 2.
      cbn [existsb]. rewrite orb_false_r. reflexivity.
Qed.

Lemma first_occurrences_In (x : string) (xs : list string) :
  In x (first_occurrences xs) <-> In x xs.
Proof.
  induction xs as [| y xs IH]; [ reflexivity | ].
  cbn [first_occurrences In]. rewrite filter_In, IH, negb_true_iff.
  destruct (String.eqb_spec x y) as [-> | Hne]; [ tauto | ].
  split; [ tauto | ]. intros [H | H]; [ now left | right; tauto ].
Qed.

Lemma first_occurrences_NoDup (xs : list string) :
  NoDup (first_occurrences xs).
Proof.
  induction xs as [| y xs IH]; cbn [first_occurrences]; constructor.
  - rewrite filter_In, String.eqb_refl. cbn. intros [_ H]; discriminate H.
  - apply NoDup_filter. exact IH.
Qed.

Lemma count_type_positive (atype : string) (anomalies : list Anomaly) :
  In atype (map anomaly_type anomalies) ->
  (1 <= count_type atype anomalies)%Z.
Proof.
  unfold count_type.
  induction anomalies as [| a rest IH]; cbn [map In filter];
    [ contradiction | ].
  intros [<- | H].
  - rewrite String.eqb_refl, ReportProofs.len_cons.
    pose proof (ReportProofs.len_nonneg
                  (filter (fun b => anomaly_type b =? anomaly_type a) rest)).
    lia.
  - destruct (anomaly_type a =? atype);
      [ rewrite ReportProofs.len_cons | ]; specialize (IH H); lia.
Qed.

Lemma count_high_permutation (l1 l2 : list Anomaly) :
  Permutation l1 l2 -> count_high l1 = count_high l2.
Proof.
  induction 1 as [| a l l' _ IH | a b l | l l' l'' _ IH1 _ IH2];
    cbn [count_high]; cbv zeta; lia.
Qed.

(** X7: The order in which the anomalies arrive does not change the
    recommendation, and neither does the duration. *)
Theorem recommendation_ignores_order (l1 l2 : list Anomaly)
    (d1 d2 : value) :
  Permutation l1 l2 ->
  get_overall_recommendation l1 d1 = get_overall_recommendation l2 d2.
Proof.
  intros Hperm.
  destruct l1 as [| a1 r1], l2 as [| a2 r2].
  - reflexivity.
  - apply Permutation_nil in Hperm. discriminate Hperm.
  - apply Permutation_sym, Permutation_nil in Hperm. discriminate Hperm.
  - rewrite !ReportProofs.recommendation_nonempty,
      (count_high_permutation _ _ Hperm). reflexivity.
Qed.

Lemma str_append_assoc (a b c : string) : (a ++ b) ++ c = a ++ b ++ c.
Proof.
  induction a as [| x a IH]; [ reflexivity | ].
  cbn [append]. rewrite IH. reflexivity.
Qed.

Lemma join_last (sep x : string) (parts : list string) :
  parts <> [] ->
  join sep (parts ++ [x]) = join sep parts ++ sep ++ x.
Proof.
  unfold join.
  induction parts as [| p rest IH]; intros Hne; [ congruence | ].
  destruct rest as [| q rest]; [ reflexivity | ].
  change (p ++ sep ++ String.concat sep ((q :: rest) ++ [x])
          = (p ++ sep ++ String.concat sep (q :: rest)) ++ sep ++ x).
  rewrite IH by discriminate.
  rewrite !str_append_assoc. reflexivity.
Qed.

Lemma dict_lookup_unique_key {V : Type} (d : dict V) (k : string) (v : V) :
  NoDup (map fst d) -> In (k, v) d -> dict_lookup d k = Some v.
Proof.
  induction d as [| [k' v'] rest IH]; cbn [map fst In dict_lookup];
    [ contradiction | ].
  intros Hnd [Heq | Hin].
  - injection Heq as -> ->. rewrite String.eqb_refl. reflexivity.
  - inversion Hnd as [| ? ? Hnotin Hnd']; subst.
    destruct (String.eqb_spec k k') as [-> | _].
    + exfalso. apply Hnotin. apply (in_map fst) in Hin. exact Hin.
    + apply IH; assumption.
Qed.

Lemma categorize_keys (anomalies : list Anomaly) :
  map fst (fst (categorize anomalies))
  = first_occurrences (map anomaly_type anomalies).
Proof.
  unfold categorize. rewrite categorize_fold_keys. cbn [map app].
  apply forallb_filter_id. apply forallb_forall. reflexivity.
Qed.

Lemma contains_app_l (a s text : string) :
  contains s text -> contains (a ++ s) text.
Proof.
  intros (before & after & ->). exists (a ++ before), after.
  rewrite str_append_assoc. reflexivity.
Qed.

Lemma contains_app_r (s b text : string) :
  contains s text -> contains (s ++ b) text.
Proof.
  intros (before & after & ->). exists before, (after ++ b).
  rewrite !str_append_assoc. reflexivity.
Qed.

(** A text that occurs in one of the parts occurs in their join. *)
Lemma contains_join (sep part text : string) (parts : list string) :
  In part parts -> contains part text -> contains (join sep parts) text.
Proof.
  unfold join. intros Hin Hc.
  induction parts as [| p rest IH]; [ contradiction | ].
  destruct rest as [| q rest].
  - destruct Hin as [-> | []]. exact Hc.
  - change (contains (p ++ sep ++ String.concat sep (q :: rest)) text).
    destruct Hin as [-> | Hin].
    + apply contains_app_r. exact Hc.
    + apply contains_app_l, contains_app_l, IH. exact Hin.
Qed.

Section WithInterpreter.

Context {I : Interpreter}.

(** X5: The breakdown of a summary counts, for every anomaly type, exactly the
    anomalies of that type (0 for a type that is no key), and no key
    carries a count below 1. *)
Theorem breakdown_counts_occurrences (session : Session)
    (anomalies : list Anomaly) (event_summary : EventSummary) :
  exists r,
    generate_report_summary session anomalies event_summary = Ok r
    /\ (forall atype,
           dict_get r.(metrics).(anomaly_breakdown) atype 0%Z
           = count_type atype anomalies)
    /\ (forall atype n,
           In (atype, n) r.(metrics).(anomaly_breakdown) ->
           n = count_type atype anomalies /\ (1 <= n)%Z).
Proof.
  destruct (ReportProofs.summary_fields session anomalies event_summary)
    as [text H].
  eexists; split; [ exact H | ]. cbn [metrics anomaly_breakdown].
  assert (Hget : forall atype,
             dict_get (fst (categorize anomalies)) atype 0%Z
             = count_type atype anomalies).
  { intros atype. unfold categorize.
    rewrite categorize_fold_per_type. reflexivity. }
  split; [ exact Hget | ].
  intros atype n Hin.
  assert (Hkey : In atype (map anomaly_type anomalies)).
  { apply first_occurrences_In. rewrite <- categorize_keys.
    apply (in_map fst) in Hin. exact Hin. }
  assert (Hn : n = count_type atype anomalies).
  { rewrite <- Hget. unfold dict_get.
    rewrite (dict_lookup_unique_key _ _ n); [ reflexivity | | exact Hin ].
    rewrite categorize_keys. apply first_occurrences_NoDup. }
  split; [ exact Hn | ]. rewrite Hn. apply count_type_positive. exact Hkey.
Qed.

(** X6: The keys of the breakdown are the anomaly types that occur, each
    once, in the order in which they are first seen. *)
Theorem breakdown_keys_first_seen (session : Session)
    (anomalies : list Anomaly) (event_summary : EventSummary) :
  exists r,
    generate_report_summary session anomalies event_summary = Ok r
    /\ map fst r.(metrics).(anomaly_breakdown)
       = first_occurrences (map anomaly_type anomalies)
    /\ NoDup (map fst r.(metrics).(anomaly_breakdown))
    /\ (forall atype,
           In atype (map fst r.(metrics).(anomaly_breakdown))
           <-> exists a, In a anomalies /\ a.(anomaly_type) = atype).
Proof.
  destruct (ReportProofs.summary_fields session anomalies event_summary)
    as [text H].
  eexists; split; [ exact H | ]. cbn [metrics anomaly_breakdown].
  rewrite categorize_keys.
  split; [ reflexivity | ]. split; [ apply first_occurrences_NoDup | ].
  intros atype. rewrite first_occurrences_In, in_map_iff.
  split; intros (a & Ha & Hb); exists a; tauto.
Qed.

(** X8: The text of a summary ends with the recommendation line, and the
    recommendation on it is the one [get_overall_recommendation] gives for
    the same anomalies. *)
Theorem summary_ends_with_recommendation (session : Session)
    (anomalies : list Anomaly) (event_summary : EventSummary) :
  exists r body,
    generate_report_summary session anomalies event_summary = Ok r
    /\ r.(summary)
       = body ++ newline ++ newline ++ "📝 Recommendation: "
           ++ get_overall_recommendation anomalies
                r.(metrics).(duration_minutes).
Proof.
  unfold generate_report_summary.
  destruct (categorize anomalies) as [counts high].
  destruct (ReportProofs.duration_prints session) as [shown Hshown].
  rewrite Hshown. cbn [bind].
  eexists; eexists. split; [ reflexivity | ].
  cbn [summary metrics duration_minutes].
  rewrite !app_assoc, join_last; [ reflexivity | ].
  intros Habs. apply (f_equal (@length string)) in Habs.
  rewrite !length_app in Habs. cbn [length] in Habs. lia.
Qed.

(** X9: With no anomalies at all the summary has zero counts, an empty
    breakdown and no flags, and its text carries the no-anomalies line and
    the proceed recommendation. *)
Theorem summary_of_no_anomalies (session : Session)
    (event_summary : EventSummary) :
  exists r,
    generate_report_summary session [] event_summary = Ok r
    /\ r.(metrics).(total_anomalies) = 0%Z
    /\ r.(metrics).(high_severity_count) = 0%Z
    /\ r.(metrics).(anomaly_breakdown) = []
    /\ r.(high_priority_flags) = []
    /\ contains r.(summary)
         "No significant anomalies detected. Session appeared normal."
    /\ contains r.(summary) proceed_message.
Proof.
  unfold generate_report_summary, categorize. cbn [fold_left].
  destruct (ReportProofs.duration_prints session) as [shown Hshown].
  rewrite Hshown. cbn [bind].
  eexists. split; [ reflexivity | ].
  cbn [summary metrics total_anomalies high_severity_count
       anomaly_breakdown high_priority_flags map app].
  repeat (split; [ reflexivity | ]).
  split.
  - eapply contains_join; [ right; right; left; reflexivity | ].
    exists (newline ++ "✓ "), "". reflexivity.
  - eapply contains_join; [ right; right; right; left; reflexivity | ].
    exists (newline ++ "📝 Recommendation: "), "". reflexivity.
Qed.

End WithInterpreter.

(** The four sample anomalies, in detection order and shuffled. *)
Lemma recommendation_ignores_order_witness :
  Permutation Samples.four_anomalies MoreSamples.four_shuffled
  /\ get_overall_recommendation Samples.four_anomalies (VInt 0)
     = get_overall_recommendation MoreSamples.four_shuffled
         (VFloat (Finite 25)).
Proof.
  assert (Hperm : Permutation Samples.four_anomalies
                              MoreSamples.four_shuffled).
  { unfold Samples.four_anomalies, MoreSamples.four_shuffled.
    apply Permutation_sym.
    apply (Permutation_cons_app
             [ Samples.anomaly "object_phone" "high" 60;
               Samples.anomaly "off_screen_gaze" "medium" 120;
               Samples.anomaly "object_phone" "high" 300 ] []).
    rewrite app_nil_r. apply perm_skip. apply perm_swap. }
  split; [ exact Hperm | ].
  apply (recommendation_ignores_order _ _ _ _ Hperm).
Defined.

End AggregatorProofs.

(** ** Proofs: which metrics reach the explanation *)

Module FormatterProofs.

Import Explain Contract.

Ltac same_key H key placeholder spec :=
  rewrite (H key placeholder spec) by (cbn; tauto).

(** The arguments handed to the template depend on the metrics only
    through the keys the type reads. *)
Lemma format_arguments_read_keys (ty : string) (m1 m2 : dict value) :
  (forall key placeholder spec,
      In (key, placeholder, spec) (reads ty) ->
      dict_lookup m1 key = dict_lookup m2 key) ->
  format_arguments ty m1 = format_arguments ty m2.
Proof.
  unfold reads, format_arguments, dict_get. intros H.
  destruct (ty =? "off_screen_gaze").
  { same_key H "off_screen_rate" "rate" (SpecPercent 0).
    same_key H "window" "window" SpecEmpty. reflexivity. }
  destruct (str_in ty ["object_phone"; "object_paper"; "face_absence"]).
  { same_key H "duration_sec" "duration" (SpecFixed 1). reflexivity. }
  destruct (ty =? "multi_person").
  { same_key H "detection_count" "count" SpecEmpty. reflexivity. }
  destruct (ty =? "excessive_head_movement").
  { same_key H "yaw_std" "yaw" (SpecFixed 1).
    same_key H "pitch_std" "pitch" (SpecFixed 1). reflexivity. }
  reflexivity.
Qed.

Section WithInterpreter.

Context {I : Interpreter}.

(** X10: Two requests for the same anomaly type whose metrics agree on the keys
    that type reads get the same explanation and the same follow-up
    questions, whatever else the metrics hold and whatever the detection
    times; for an unrecognized type no key is read at all. *)
Theorem explanation_ignores_unread_keys (ty : string) (m1 m2 : dict value)
    (t1 t2 : string) :
  (forall key placeholder spec,
      In (key, placeholder, spec) (reads ty) ->
      dict_lookup m1 key = dict_lookup m2 key) ->
  exists r1 r2,
    explain_anomaly
      {| anomaly_type := ty; metrics := m1; detected_at := t1 |} = Ok r1
    /\ explain_anomaly
         {| anomaly_type := ty; metrics := m2; detected_at := t2 |} = Ok r2
    /\ r1.(explanation) = r2.(explanation)
    /\ r1.(suggested_followup) = r2.(suggested_followup).
Proof.
  intros H. unfold explain_anomaly.
  eexists; eexists. split; [ reflexivity | ]. split; [ reflexivity | ].
  cbn [explanation suggested_followup anomaly_type metrics].
  unfold substitute. rewrite (format_arguments_read_keys ty m1 m2 H).
  split; reflexivity.
Qed.

End WithInterpreter.

(** Metrics with and without keys that [object_phone] does not read. *)
Lemma explanation_ignores_unread_keys_witness :
  MoreSamples.noisy_metrics <> MoreSamples.plain_metrics
  /\ exists r1 r2,
       explain_anomaly (I := Reference.interpreter)
         {| anomaly_type := "object_phone";
            metrics := MoreSamples.noisy_metrics;
            detected_at := "2024-01-01T00:00:00Z" |} = Ok r1
       /\ explain_anomaly (I := Reference.interpreter)
            {| anomaly_type := "object_phone";
               metrics := MoreSamples.plain_metrics;
               detected_at := "2024-01-02T00:00:00Z" |} = Ok r2
       /\ r1.(explanation) = r2.(explanation).
Proof.
  split; [ discriminate | ].
  destruct (explanation_ignores_unread_keys (I := Reference.interpreter)
              "object_phone" MoreSamples.noisy_metrics
              MoreSamples.plain_metrics
              "2024-01-01T00:00:00Z" "2024-01-02T00:00:00Z")
    as (r1 & r2 & H1 & H2 & Hexp & _).
  - intros key placeholder spec Hin. cbn in Hin.
    destruct Hin as [Hin | []]. injection Hin as <- <- <-. reflexivity.
  - exists r1, r2. split; [ exact H1 | ]. split; [ exact H2 | exact Hexp ].
Defined.

End FormatterProofs.

(** ** Proofs: what [/generate_report] reads, returns and stores *)

Module HandlerProofs.

Import Report Service Contract Vocabulary.













Ltac reduce_handler_in H :=
  cbn [failing_call sessions anomalies events reports connections
       next_conn_id next_report_id clock db_call_eqb] in H.

Ltac open_handler_in H :=
  unfold generate_report, io_try, io_bind, io_lift, io_ret, io_raise,
    get_db, cursor, fetch_session, fetch_anomalies, fetch_event_summary,
    insert_report, commit, close, utcnow, storage_call,
    with_connections, with_reports, with_next_report_id in H;
  reduce_handler_in H.

Ltac reduce_handler :=
  cbn [failing_call sessions anomalies events reports connections
       next_conn_id next_report_id clock db_call_eqb].

Ltac open_handler :=
  unfold generate_report, io_try, io_bind, io_lift, io_ret, io_raise,
    get_db, cursor, fetch_session, fetch_anomalies, fetch_event_summary,
    insert_report, commit, close, utcnow, storage_call,
    with_connections, with_reports, with_next_report_id;
  reduce_handler.

(** Splits a run of the handler, given as hypothesis [H], along the
    session lookup and the outcome of the aggregator. *)
Ltac split_run H :=
  repeat match type of H with
         | context [find ?f ?l] =>
             let Hfind := fresh "Hfind" in
             destruct (find f l) eqn:Hfind; reduce_handler_in H
         | context [generate_report_summary ?s ?a ?es] =>
             let Hsum := fresh "Hsum" in
             destruct (generate_report_summary s a es) eqn:Hsum;
             reduce_handler_in H
         end.

Section WithInterpreter.

Context {I : Interpreter}.

(** X11: Whatever goes wrong inside [generate_report], the caller sees an
    [HTTPException] with status 500 whose detail starts with
    [Report generation failed: ]; no other status and no other exception
    leaves the handler. *)
Theorem every_failure_is_a_500 (request : ReportRequest) (w w' : World)
    (e : exn) :
  generate_report request w = (Raise e, w') ->
  exists cause, e = HTTPException 500 (failure_prefix ++ cause).
Proof.
  unfold generate_report, io_try, io_raise.
  match goal with
  | |- context [io_bind ?m ?k w] => destruct (io_bind m k w) as [[r | e0] w0]
  end; intros H; [ discriminate H | ].
  injection H as <- _. eexists; reflexivity.
Qed.

(** What a run that returns normally has read, returned and stored. *)
Lemma successful_run (request : ReportRequest) (w w' : World)
    (response : ReportResponse) :
  generate_report request w = (Ok response, w') ->
  let sid := request.(request_session_id) in
  let rows := order_by_detected_at (map snd (rows_of sid w.(anomalies))) in
  let times := map snd (rows_of sid w.(events)) in
  let row :=
    {| id := w.(next_report_id);
       row_session_id := sid;
       row_generated_at := w.(clock);
       vlm_summary := response.(response_summary).(summary);
       row_metrics :=
         json_dumps (metrics_value response.(response_summary).(metrics));
       report_type := "standard" |} in
  w.(failing_call) = None
  /\ response.(response_session_id) = sid
  /\ response.(report_id) = w.(next_report_id)
  /\ w'.(reports)
     = (w.(reports)
        ++ pending_of w.(next_conn_id)
             (map (add_pending w.(next_conn_id) row)
                  ({| conn_id := w.(next_conn_id); pending := [] |}
                   :: w.(connections))))%list
  /\ exists session,
       session_of w request = Some session
       /\ generate_report_summary session rows
            {| event_count := len times;
               first_event := min_time times;
               last_event := max_time times |}
          = Ok response.(response_summary).
Proof.
  intros Hrun. cbv zeta. unfold session_of, rows_of.
  destruct w as [ss an ev rp cs nc nr ck fc];
    cbn [sessions anomalies events reports connections next_conn_id
         next_report_id clock failing_call].
  open_handler_in Hrun.
  destruct fc as [[c msg] |]; [ destruct c | ];
    reduce_handler_in Hrun; split_run Hrun;
    cbn [map] in Hrun; try discriminate Hrun.
  injection Hrun as <- <-.
  cbn [response_session_id report_id response_summary reports].
  repeat (split; [ reflexivity | ]).
  eexists. split; [ reflexivity | exact Hsum ].
Qed.



(** X14: The row a successful run commits carries the very text and the
    serialized metrics of the summary it returns, the returned id, the
    requested session id and the report type [standard]. *)
Theorem stored_row_matches_response (request : ReportRequest)
    (w w' : World) (response : ReportResponse) :
  generate_report request w = (Ok response, w') ->
  ids_below w.(next_conn_id) w.(connections) ->
  exists stamp,
    w'.(reports)
    = (w.(reports)
       ++ [ {| id := response.(report_id);
               row_session_id := request.(request_session_id);
               row_generated_at := stamp;
               vlm_summary := response.(response_summary).(summary);
               row_metrics :=
                 json_dumps
                   (metrics_value response.(response_summary).(metrics));
               report_type := "standard" |} ])%list.
Proof.
  intros Hrun Hids.
  destruct (successful_run _ _ _ _ Hrun)
    as (_ & _ & Hid & Hreports & _).
  exists w.(clock). rewrite Hreports, Hid. f_equal.
  cbn [map]. rewrite (ServiceProofs.add_pending_others _ _ _ Hids).
  unfold pending_of, add_pending; cbn [flat_map conn_id pending].
  rewrite Nat.eqb_refl. cbn [conn_id pending app].
  rewrite Nat.eqb_refl. fold (pending_of (next_conn_id w) (connections w)).
  rewrite (ServiceProofs.pending_of_others _ _ Hids). reflexivity.
Qed.

Ltac split_goal_run :=
  repeat match goal with
         | |- context [find ?f ?l] => destruct (find f l); reduce_handler
         | |- context [generate_report_summary ?s ?a ?es] =>
             let text := fresh "text" in
             let Hfields := fresh "Hfields" in
             destruct (ReportProofs.summary_fields s a es)
               as [text Hfields];
             rewrite Hfields; reduce_handler
         end.

(** X15: When a storage call raises, its message reaches the caller behind the
    fixed prefix, provided the call is reached: it is one of the calls
    made before the session check, or the session exists. *)
Theorem storage_failure_is_reported (request : ReportRequest) (w : World)
    (c : db_call) (msg : string) :
  w.(failing_call) = Some (c, msg) ->
  before_session_check c = true \/ session_of w request <> None ->
  exists w',
    generate_report request w
    = (Raise (HTTPException 500 (failure_prefix ++ msg)), w').
Proof.
  intros Hcall Hreached. unfold session_of in Hreached.
  destruct w as [ss an ev rp cs nc nr ck fc];
    cbn [failing_call sessions] in *. subst fc.
  open_handler.
  destruct c; cbn [before_session_check] in Hreached; reduce_handler;
    try (eexists; reflexivity);
    (destruct Hreached as [Hreached | Hreached]; [ discriminate Hreached | ]);
    match goal with
    | |- context [find ?f ?l] =>
        destruct (find f l); [ | congruence ]
    end;
    reduce_handler; split_goal_run; eexists; reflexivity.
Qed.

(** X16: A run that ends with an error commits no report row, unless the error
    comes from closing the connection, which happens after the commit. *)
Theorem no_report_row_on_failure (request : ReportRequest) (w w' : World)
    (e : exn) :
  generate_report request w = (Raise e, w') ->
  (forall msg, w.(failing_call) <> Some (Close, msg)) ->
  w'.(reports) = w.(reports).
Proof.
  intros Hrun Hclose.
  destruct w as [ss an ev rp cs nc nr ck fc];
    cbn [failing_call reports] in *.
  open_handler_in Hrun.
  destruct fc as [[c msg] |]; [ destruct c | ];
    reduce_handler_in Hrun;
    try (exfalso; apply (Hclose msg); reflexivity);
    split_run Hrun; cbn [map] in Hrun; try discriminate Hrun;
    injection Hrun as _ <-; reflexivity.
Qed.

(** X17: If closing the connection raises, the caller is told that report
    generation failed although the report row is already committed, and
    the connection stays open. *)
Theorem close_failure_after_commit (request : ReportRequest) (w : World)
    (msg : string) :
  w.(failing_call) = Some (Close, msg) ->
  session_of w request <> None ->
  ids_below w.(next_conn_id) w.(connections) ->
  exists w' row,
    generate_report request w
    = (Raise (HTTPException 500 (failure_prefix ++ msg)), w')
    /\ w'.(reports) = (w.(reports) ++ [ row ])%list
    /\ row.(row_session_id) = request.(request_session_id)
    /\ row.(id) = w.(next_report_id)
    /\ length w'.(connections) = S (length w.(connections)).
Proof.
  intros Hcall Hsession Hids. unfold session_of in Hsession.
  destruct w as [ss an ev rp cs nc nr ck fc];
    cbn [failing_call sessions connections next_conn_id reports
         next_report_id] in *. subst fc.
  open_handler.
  match goal with
  | |- context [find ?f ?l] => destruct (find f l); [ | congruence ]
  end.
  reduce_handler. split_goal_run.
  eexists; eexists. split; [ reflexivity | ].
  cbn [reports connections map length].
  rewrite (ServiceProofs.add_pending_others _ _ _ Hids), !length_map.
  unfold pending_of, add_pending; cbn [flat_map conn_id pending].
  rewrite Nat.eqb_refl. cbn [conn_id pending app].
  rewrite Nat.eqb_refl. fold (pending_of nc cs).
  rewrite (ServiceProofs.pending_of_others _ _ Hids).
  split; [ reflexivity | ]. repeat split.
Qed.

(** X18: The outcome of a request depends on the anomalies and events tables
    only through the rows of the requested session: rows of other sessions
    change neither the response nor the error. *)
Theorem other_sessions_do_not_interfere (request : ReportRequest)
    (w1 w2 : World) :
  w1.(sessions) = w2.(sessions) ->
  rows_of request.(request_session_id) w1.(anomalies)
  = rows_of request.(request_session_id) w2.(anomalies) ->
  rows_of request.(request_session_id) w1.(events)
  = rows_of request.(request_session_id) w2.(events) ->
  w1.(next_report_id) = w2.(next_report_id) ->
  w1.(clock) = w2.(clock) ->
  w1.(failing_call) = w2.(failing_call) ->
  fst (generate_report request w1) = fst (generate_report request w2).
Proof.
  intros Hss Han Hev Hid Hck Hfc. unfold rows_of in Han, Hev.
  destruct w1 as [ss1 an1 ev1 rp1 cs1 nc1 nr1 ck1 fc1],
           w2 as [ss2 an2 ev2 rp2 cs2 nc2 nr2 ck2 fc2];
    cbn [sessions anomalies events next_report_id clock failing_call] in *.
  subst ss2 nr2 ck2 fc2.
  open_handler.
  destruct fc1 as [[c msg] |]; [ destruct c | ];
    reduce_handler; try reflexivity;
    match goal with
    | |- context [find ?f ?l] => destruct (find f l)
    end;
    reduce_handler; try reflexivity;
    rewrite ?Han, ?Hev; split_goal_run; reflexivity.
Qed.

End WithInterpreter.

(** A request for a session the sample store does not hold. *)
Lemma every_failure_is_a_500_witness :
  exists e w' cause,
    generate_report (I := Reference.interpreter)
      (Samples.request_for "nope") Samples.store = (Raise e, w')
    /\ e = HTTPException 500 (failure_prefix ++ cause).
Proof.
  destruct (generate_report (I := Reference.interpreter)
              (Samples.request_for "nope") Samples.store)
    as [[response | e] w'] eqn:Hrun.
  - vm_compute in Hrun. discriminate Hrun.
  - destruct (every_failure_is_a_500 (I := Reference.interpreter)
                _ _ _ _ Hrun) as [cause Hcause].
    exists e, w', cause. split; [ reflexivity | exact Hcause ].
Defined.



Lemma stored_row_matches_response_witness :
  exists response w' stamp,
    generate_report (I := Reference.interpreter)
      (Samples.request_for "s-1") Samples.store = (Ok response, w')
    /\ ids_below Samples.store.(next_conn_id) Samples.store.(connections)
    /\ w'.(reports)
       = [ {| id := response.(report_id);
              row_session_id := "s-1";
              row_generated_at := stamp;
              vlm_summary := response.(response_summary).(summary);
              row_metrics :=
                Reference.json_dumps
                  (metrics_value response.(response_summary).(metrics));
              report_type := "standard" |} ].
Proof.
  destruct (generate_report (I := Reference.interpreter)
              (Samples.request_for "s-1") Samples.store)
    as [[response | e] w'] eqn:Hrun.
  - destruct (stored_row_matches_response (I := Reference.interpreter)
                _ _ _ _ Hrun (Forall_nil _)) as [stamp Hrow].
    exists response, w', stamp.
    split; [ reflexivity | ]. split; [ constructor | exact Hrow ].
  - vm_compute in Hrun. discriminate Hrun.
Defined.

(** The insert fails while the session exists. *)
Lemma storage_failure_is_reported_witness :
  session_of (MoreSamples.with_failing_call Samples.store InsertReport
                "disk full")
             (Samples.request_for "s-1") <> None
  /\ exists w',
       generate_report (I := Reference.interpreter)
         (Samples.request_for "s-1")
         (MoreSamples.with_failing_call Samples.store InsertReport
            "disk full")
       = (Raise (HTTPException 500 "Report generation failed: disk full"),
          w').
Proof.
  assert (Hsession :
            session_of (MoreSamples.with_failing_call Samples.store
                          InsertReport "disk full")
                       (Samples.request_for "s-1") <> None)
    by discriminate.
  split; [ exact Hsession | ].
  apply (storage_failure_is_reported (I := Reference.interpreter)
           (Samples.request_for "s-1")
           (MoreSamples.with_failing_call Samples.store InsertReport
              "disk full")
           InsertReport "disk full" eq_refl (or_intror Hsession)).
Defined.

(** The commit fails: the inserted row never becomes visible. *)
Lemma no_report_row_on_failure_witness :
  exists e w',
    generate_report (I := Reference.interpreter)
      (Samples.request_for "s-1")
      (MoreSamples.with_failing_call Samples.store Commit "connection lost")
    = (Raise e, w')
    /\ w'.(reports) = [].
Proof.
  destruct (generate_report (I := Reference.interpreter)
              (Samples.request_for "s-1")
              (MoreSamples.with_failing_call Samples.store Commit
                 "connection lost"))
    as [[response | e] w'] eqn:Hrun.
  - vm_compute in Hrun. discriminate Hrun.
  - exists e, w'. split; [ reflexivity | ].
    apply (no_report_row_on_failure (I := Reference.interpreter)
             _ _ _ _ Hrun).
    intros msg; discriminate.
Defined.

(** Closing fails after the row was committed. *)
Lemma close_failure_after_commit_witness :
  exists w' row,
    generate_report (I := Reference.interpreter)
      (Samples.request_for "s-1")
      (MoreSamples.with_failing_call Samples.store Close "broken pipe")
    = (Raise (HTTPException 500 "Report generation failed: broken pipe"),
       w')
    /\ w'.(reports) = [ row ]
    /\ row.(row_session_id) = "s-1".
Proof.
  destruct (close_failure_after_commit (I := Reference.interpreter)
              (Samples.request_for "s-1")
              (MoreSamples.with_failing_call Samples.store Close
                 "broken pipe")
              "broken pipe" eq_refl)
    as (w' & row & Hrun & Hreports & Hsid & _).
  - discriminate.
  - constructor.
  - exists w', row. split; [ exact Hrun | ].
    split; [ exact Hreports | exact Hsid ].
Defined.

(** The sample store, and the same store with rows of session [s-9]. *)
Lemma other_sessions_do_not_interfere_witness :
  Samples.store.(anomalies) <> MoreSamples.busier_store.(anomalies)
  /\ Samples.store.(events) <> MoreSamples.busier_store.(events)
  /\ fst (generate_report (I := Reference.interpreter)
            (Samples.request_for "s-1") Samples.store)
     = fst (generate_report (I := Reference.interpreter)
              (Samples.request_for "s-1") MoreSamples.busier_store).
Proof.
  split; [ discriminate | ]. split; [ discriminate | ].
  apply (other_sessions_do_not_interfere (I := Reference.interpreter));
    reflexivity.
Defined.

End HandlerProofs.

(** ** Proofs: the summary text and the template arguments *)

Module TextProofs.

Import Explain Report Contract Vocabulary.

Lemma format_value_no_key_error {I : Interpreter} (spec : format_spec)
    (v : value) (e : exn) :
  format_value spec v = Raise e -> forall k, e <> KeyError k.
Proof.
  intros H k ->.
  destruct spec, v; cbn [format_value] in H; try discriminate H;
    try destruct b; unfold float_of_int in H;
    match type of H with
    | context [(?a <? ?b)%Z] => destruct (a <? b)%Z
    end; discriminate H.
Qed.

Lemma str_append_empty (s : string) : s ++ "" = s.
Proof.
  induction s as [| c s IH]; [ reflexivity | ].
  cbn [append]. rewrite IH. reflexivity.
Qed.

Lemma contains_itself (s : string) : contains s s.
Proof. exists "", "". cbn [append]. rewrite str_append_empty. reflexivity. Qed.

Section WithInterpreter.

Context {I : Interpreter}.

Ltac no_key_error k :=
  unfold substitute, format_arguments;
  cbn [dict_get dict_lookup ANOMALY_EXPLANATIONS String.eqb Ascii.eqb
       Bool.eqb str_in existsb orb str_format bind];
  repeat match goal with
         | |- context [format_value ?spec ?v] =>
             let e := fresh "e" in
             let He := fresh "He" in
             destruct (format_value spec v) as [? | e] eqn:He;
             cbn [bind];
             [ | intros Habs; injection Habs as ->;
                 exact (format_value_no_key_error _ _ _ He k eq_refl) ]
         end;
  discriminate.

(** X19: Every placeholder of every template, the generic one included, is
    given an argument by the branch that fills it: substitution never
    fails for want of a key, only because a value cannot be printed. *)
Theorem substitution_never_lacks_an_argument (ty : string)
    (metrics : dict value) (k : string) :
  substitute ty metrics <> Raise (KeyError k).
Proof.
  destruct (recognized ty) eqn:Hrec.
  - destruct (ExplainProofs.recognized_cases ty Hrec)
      as [-> | [-> | [-> | [-> | [-> | ->]]]]]; no_key_error k.
  - destruct (ExplainProofs.unrecognized_cases _ Hrec)
      as (H1 & H2 & H3 & H4 & H5 & H6).
    unfold substitute, format_arguments, dict_get, str_in,
      ANOMALY_EXPLANATIONS; cbn [dict_lookup existsb].
    rewrite H1, H2, H3, H4, H5, H6. discriminate.
Qed.

(** X20: The text of a summary states the total number of anomalies, lists
    every type of the breakdown with its count, and lists the descriptions
    of the first three high-severity anomalies. *)
Theorem summary_text_reflects_metrics (session : Session)
    (anomalies : list Anomaly) (event_summary : EventSummary) :
  exists r,
    generate_report_summary session anomalies event_summary = Ok r
    /\ contains r.(summary)
         ("Total of " ++ str_int r.(metrics).(total_anomalies)
            ++ " behavioral flags detected during the session.")
    /\ (forall atype n,
           In (atype, n) r.(metrics).(anomaly_breakdown) ->
           contains r.(summary)
             ("  - " ++ atype ++ ": " ++ str_int n ++ " occurrences"))
    /\ (forall a,
           In a (firstn 3 (filter is_high anomalies)) ->
           contains r.(summary) ("  - " ++ a.(description))).
Proof.
  pose proof (ReportProofs.categorize_high anomalies) as Hhigh.
  unfold generate_report_summary.
  destruct (categorize anomalies) as [counts high]. cbn [snd] in Hhigh.
  subst high.
  destruct (ReportProofs.duration_prints session) as [shown Hshown].
  rewrite Hshown. cbn [bind].
  eexists. split; [ reflexivity | ].
  cbn [summary metrics total_anomalies anomaly_breakdown].
  split; [ | split ].
  - eapply AggregatorProofs.contains_join;
      [ apply in_or_app; left; right; left; reflexivity | ].
    apply contains_itself.
  - intros atype n Hin.
    eapply AggregatorProofs.contains_join.
    + apply in_or_app; right. apply in_or_app; right.
      apply in_or_app; left.
      destruct counts as [| c counts]; [ contradiction | ].
      right. apply (in_map (fun '(atype, count) =>
                              "  - " ++ atype ++ ": " ++ str_int count
                                ++ " occurrences")) in Hin.
      exact Hin.
    + apply contains_itself.
  - intros a Hin.
    eapply AggregatorProofs.contains_join.
    + apply in_or_app; right. apply in_or_app; left.
      destruct (filter is_high anomalies) as [| h high];
        [ destruct Hin | ].
      right. apply (in_map (fun anomaly => "  - " ++ description anomaly))
        in Hin.
      exact Hin.
    + apply contains_itself.
Qed.

End WithInterpreter.

End TextProofs.
